(** * Market analysis agent: control loop, tool contract and report generator

    A shallow embedding of [src/agent/graph.py], [src/tools/base.py],
    [src/tools/report_generator.py] and the [@tool] entry points of the three
    data tools.  Python values are the [PyVal] type below; a raised Python
    exception is the [Raise] branch of [py_result].  The parts of the Python
    runtime and libraries that the code calls but that are not part of the
    repository (json.loads/json.dumps, float formatting, the clock, the
    scraping services' bodies and the LangGraph [ToolNode] error policy) are
    fields of the record [PyEnv]; the language model is an argument [llm]. *)

From Stdlib Require Import String Ascii List ZArith Bool Lia Floats.
Import ListNotations.

#[local] Set Warnings "-register-all -inexact-float".

Local Open Scope string_scope.

(* ------------------------------------------------------------------ *)
(** ** Python exceptions and the result monad *)

(** [ToolError] is the class of [src/tools/base.py]; [PyException] is any
    other subclass of [Exception]; [PyBaseException] a [BaseException] that
    does not derive from [Exception] (KeyboardInterrupt, SystemExit). *)
Inductive py_exc : Type :=
| ToolError (tool_name : string) (message : string) (original_error : option py_exc)
| PyException (cls : string) (msg : string)
| PyBaseException (cls : string) (msg : string).

(** [isinstance(e, Exception)] *)
Definition is_Exception (e : py_exc) : bool :=
  match e with
  | PyBaseException _ _ => false
  | _ => true
  end.

(** [str(e)]; [ToolError.__init__] passes [f"[{tool_name}] {message}"] to
    [Exception.__init__]. *)
Definition exc_str (e : py_exc) : string :=
  match e with
  | ToolError t m _ => "[" ++ t ++ "] " ++ m
  | PyException _ m => m
  | PyBaseException _ m => m
  end.

Inductive py_result (A : Type) : Type :=
| Ok (a : A)
| Raise (e : py_exc).
Arguments Ok {A} a.
Arguments Raise {A} e.

Definition py_bind {A B : Type} (c : py_result A) (k : A -> py_result B) : py_result B :=
  match c with
  | Ok a => k a
  | Raise e => Raise e
  end.

Notation "'let*' x ':=' c 'in' k" := (py_bind c (fun x => k))
  (at level 200, x name, c at level 100, k at level 200).

Fixpoint py_map_m {A B : Type} (f : A -> py_result B) (l : list A) : py_result (list B) :=
  match l with
  | [] => Ok []
  | x :: r => let* y := f x in let* ys := py_map_m f r in Ok (y :: ys)
  end.

(* ------------------------------------------------------------------ *)
(** ** Python values *)

(** The values that json.loads produces and the report generator consumes.
    A [dict] is an association list (json.loads keeps the last of duplicate
    keys, so its keys are distinct); a [str] is its UTF-8 encoding. *)
Inductive PyVal : Type :=
| PNone
| PBool (b : bool)
| PInt (z : Z)
| PFloat (f : float)
| PStr (s : string)
| PList (l : list PyVal)
| PDict (d : list (string * PyVal)).

Definition type_name (v : PyVal) : string :=
  match v with
  | PNone => "NoneType" | PBool _ => "bool" | PInt _ => "int" | PFloat _ => "float"
  | PStr _ => "str" | PList _ => "list" | PDict _ => "dict"
  end.

Fixpoint assoc {A : Type} (k : string) (d : list (string * A)) : option A :=
  match d with
  | [] => None
  | (k', v) :: r => if String.eqb k k' then Some v else assoc k r
  end.

(** [bool(v)] *)
Definition truthy (v : PyVal) : bool :=
  match v with
  | PNone => false
  | PBool b => b
  | PInt z => negb (Z.eqb z 0)
  | PFloat f => negb (PrimFloat.eqb f 0%float)
  | PStr s => negb (String.eqb s "")
  | PList l => match l with [] => false | _ => true end
  | PDict d => match d with [] => false | _ => true end
  end.

(* ------------------------------------------------------------------ *)
(** ** Strings *)

(** Bytes given by their codes, for the non-ASCII literals of the source. *)
Definition bytes (l : list nat) : string :=
  fold_right (fun n s => String (ascii_of_nat n) s) "" l.

Fixpoint py_join (sep : string) (l : list string) : string :=
  match l with
  | [] => ""
  | [x] => x
  | x :: r => x ++ sep ++ py_join sep r
  end.

(** [needle in hay] for [str]: on UTF-8 encodings, code-point substring and
    byte substring coincide. *)
Fixpoint contains (needle hay : string) : bool :=
  if String.prefix needle hay then true
  else match hay with
       | EmptyString => false
       | String _ r => contains needle r
       end.

(** The code points of a [str]: a new one starts at every byte that is not
    a UTF-8 continuation byte (0x80..0xBF). *)
Definition utf8_cont (c : ascii) : bool :=
  let n := nat_of_ascii c in Nat.leb 128 n && Nat.ltb n 192.

Fixpoint utf8_chars_aux (cur : string) (s : string) : list string :=
  match s with
  | EmptyString => if String.eqb cur "" then [] else [cur]
  | String c r =>
      if utf8_cont c then utf8_chars_aux (cur ++ String c "") r
      else if String.eqb cur "" then utf8_chars_aux (String c "") r
      else cur :: utf8_chars_aux (String c "") r
  end.

Definition utf8_chars (s : string) : list string := utf8_chars_aux "" s.

(** The whitespace that [str.strip()] removes, restricted to ASCII (the
    only characters at the ends of the generated report). *)
Definition py_space (c : ascii) : bool :=
  let n := nat_of_ascii c in
  (Nat.leb 9 n && Nat.leb n 13) || (Nat.leb 28 n && Nat.leb n 32).

Fixpoint lstrip_l (l : list ascii) : list ascii :=
  match l with
  | [] => []
  | c :: r => if py_space c then lstrip_l r else l
  end.

Definition py_strip (s : string) : string :=
  string_of_list_ascii
    (rev (lstrip_l (rev (lstrip_l (list_ascii_of_string s))))).

Definition digit (n : Z) : string := String (ascii_of_nat (48 + Z.to_nat n)) "".

Fixpoint pos_dec (fuel : nat) (p : Z) (acc : string) : string :=
  match fuel with
  | O => acc
  | S f => if Z.ltb p 10 then digit p ++ acc
           else pos_dec f (Z.div p 10) (digit (Z.modulo p 10) ++ acc)
  end.

(** [str(z)] for an [int]. *)
Definition z_dec (z : Z) : string :=
  let p := Z.abs z in
  (if Z.ltb z 0 then "-" else "") ++ pos_dec (S (Z.to_nat (Z.log2 (p + 1)))) p "".

Fixpoint zeros (n : nat) : string :=
  match n with O => "" | S k => "0" ++ zeros k end.

Fixpoint repeat_str (n : nat) (s : string) : string :=
  match n with O => "" | S k => s ++ repeat_str k s end.

(* ------------------------------------------------------------------ *)
(** ** The Python runtime and the tools' collaborators *)

(** Outcome of [json.loads(s)] on a [str]: a value, a [JSONDecodeError]
    (the input is not valid JSON), or another exception. *)
Inductive json_outcome : Type :=
| JsonOk (v : PyVal)
| JsonDecodeError (msg : string)
| JsonOtherError (e : py_exc).

Inductive log_line : Type :=
| LogInfo (logger : string) (msg : string)
| LogWarning (logger : string) (msg : string)
| LogError (logger : string) (msg : string).

Record PyEnv : Type := {
  json_loads : string -> json_outcome;
  json_dumps : PyVal -> string;
  (** [repr(f)] of a float and [format(f, '.<n>f')] *)
  float_repr : float -> string;
  float_format_f : nat -> float -> string;
  (** [float(z)] for an int that a double does not hold exactly
      (|z| > 2^53); [OverflowError] past the double range *)
  big_int_to_float : Z -> py_result float;
  (** [repr(s)] of a str *)
  str_repr : string -> string;
  (** [datetime.now().strftime("%m/%d/%Y %H:%M")] *)
  now_mdY_HM : string;
  (** the milliseconds [tool_error_handler] measures, as formatted by [:.2f] *)
  elapsed_ms : string;
  (** [Service().scrape/analyze(x).model_dump()] of the three data tools:
      the field list of the pydantic model, or the exception raised *)
  product_scraper_scrape : string -> py_result (list (string * PyVal));
  competitor_analyzer_analyze : string -> py_result (list (string * PyVal));
  sentiment_analyzer_analyze : string -> py_result (list (string * PyVal));
  (** LangGraph [ToolNode] [handle_tool_errors]: [Some content] turns an
      exception raised by a tool into an error [ToolMessage] with that
      content, [None] re-raises it *)
  tool_error_policy : py_exc -> option string
}.

Section Python.

Variable env : PyEnv.

Definition attribute_error (v : PyVal) (attr : string) : py_exc :=
  PyException "AttributeError" ("'" ++ type_name v ++ "' object has no attribute '" ++ attr ++ "'").

Definition type_error (msg : string) : py_exc := PyException "TypeError" msg.

(** [v.get(k, default)] *)
Definition py_get (v : PyVal) (k : string) (default : PyVal) : py_result PyVal :=
  match v with
  | PDict d => Ok (match assoc k d with Some x => x | None => default end)
  | _ => Raise (attribute_error v "get")
  end.

(** [repr(v)] and [str(v)], as f-string fields [{v}] use the latter. *)
Fixpoint py_repr (v : PyVal) : string :=
  match v with
  | PNone => "None"
  | PBool b => if b then "True" else "False"
  | PInt z => z_dec z
  | PFloat f => float_repr env f
  | PStr s => str_repr env s
  | PList l => "[" ++ py_join ", " (map py_repr l) ++ "]"
  | PDict d =>
      "{" ++ py_join ", " (map (fun kv => match kv with
                                          | (k, x) => str_repr env k ++ ": " ++ py_repr x
                                          end) d) ++ "}"
  end.

Definition py_str (v : PyVal) : string :=
  match v with
  | PStr s => s
  | _ => py_repr v
  end.

(** [float(z)] *)
Definition int_to_float (z : Z) : py_result float :=
  if Z.leb (Z.abs z) (2 ^ 53) then
    Ok (PrimFloat.of_uint63 (Uint63.of_Z (Z.abs z)) * (if Z.ltb z 0 then (-1)%float else 1%float))%float
  else big_int_to_float env z.

(** [format(v, '.<n>f')], as in an f-string field [{v:.<n>f}]; an int is
    formatted through [float(v)], which is exact up to 2^53. *)
Definition py_format_f (n : nat) (v : PyVal) : py_result string :=
  let fmt_int z :=
    if Z.leb (Z.abs z) (2 ^ 53) then
      Ok (z_dec z ++ match n with O => "" | _ => "." ++ zeros n end)
    else let* f := big_int_to_float env z in Ok (float_format_f env n f) in
  match v with
  | PInt z => fmt_int z
  | PBool b => fmt_int (if b then 1 else 0)%Z
  | PFloat f => Ok (float_format_f env n f)
  | PStr _ => Raise (PyException "ValueError" "Unknown format code 'f' for object of type 'str'")
  | _ => Raise (type_error ("unsupported format string passed to " ++ type_name v ++ ".__format__"))
  end.

(** [v * 100] *)
Definition py_mul_100 (v : PyVal) : py_result PyVal :=
  match v with
  | PInt z => Ok (PInt (z * 100))
  | PBool b => Ok (PInt (if b then 100 else 0))
  | PFloat f => Ok (PFloat (f * 100)%float)
  | PStr s => Ok (PStr (repeat_str 100 s))
  | PList l => Ok (PList (List.concat (repeat l 100)))
  | _ => Raise (type_error ("unsupported operand type(s) for *: '" ++ type_name v ++ "' and 'int'"))
  end.

(** [v * 1.1] *)
Definition py_mul_1_1 (v : PyVal) : py_result PyVal :=
  match v with
  | PInt z => let* f := int_to_float z in Ok (PFloat (f * 1.1)%float)
  | PBool b => Ok (PFloat ((if b then 1 else 0) * 1.1)%float)
  | PFloat f => Ok (PFloat (f * 1.1)%float)
  | PStr _ | PList _ => Raise (type_error "can't multiply sequence by non-int of type 'float'")
  | _ => Raise (type_error ("unsupported operand type(s) for *: '" ++ type_name v ++ "' and 'float'"))
  end.

(** [v[:n]] *)
Definition py_slice_upto (v : PyVal) (n : nat) : py_result PyVal :=
  match v with
  | PList l => Ok (PList (firstn n l))
  | PStr s => Ok (PStr (String.concat "" (firstn n (utf8_chars s))))
  | PDict _ => Raise (type_error "unhashable type: 'slice'")
  | _ => Raise (type_error ("'" ++ type_name v ++ "' object is not subscriptable"))
  end.

(** [for x in v] *)
Definition py_iter (v : PyVal) : py_result (list PyVal) :=
  match v with
  | PList l => Ok l
  | PStr s => Ok (map PStr (utf8_chars s))
  | PDict d => Ok (map (fun kv => PStr (fst kv)) d)
  | _ => Raise (type_error ("'" ++ type_name v ++ "' object is not iterable"))
  end.

(** [v[0]]; the keys of a decoded JSON object are strings, so [0] is
    never one of them. *)
Definition py_index0 (v : PyVal) : py_result PyVal :=
  match v with
  | PList (x :: _) => Ok x
  | PList [] => Raise (PyException "IndexError" "list index out of range")
  | PStr s => match utf8_chars s with
              | c :: _ => Ok (PStr c)
              | [] => Raise (PyException "IndexError" "string index out of range")
              end
  | PDict _ => Raise (PyException "KeyError" "0")
  | _ => Raise (type_error ("'" ++ type_name v ++ "' object is not subscriptable"))
  end.

End Python.

(* ------------------------------------------------------------------ *)
(** ** [src/tools/report_generator.py] *)

(** The non-ASCII literals of the source, byte for byte. *)
Definition chart_icon : string := bytes [195; 176; 197; 184; 226; 128; 156; 197; 160].
Definition red_icon : string := bytes [195; 176; 197; 184; 226; 128; 157; 194; 180].
Definition orange_icon : string := bytes [195; 176; 197; 184; 197; 184; 194; 160].
Definition green_icon : string := bytes [195; 176; 197; 184; 197; 184; 194; 162].

Definition nl : string := String (ascii_of_nat 10) "".

Section Report.

Variable env : PyEnv.

Definition report_logger : string := "src.tools.report_generator.ReportGeneratorService".

(** [ReportGeneratorService._parse_json_safely]; the warning it logs is
    not kept.  [json.loads] raises [TypeError] on anything but a str. *)
Definition parse_json_safely (data : PyVal) : py_result PyVal :=
  match data with
  | PDict _ => Ok data
  | PStr s =>
      match json_loads env s with
      | JsonOk v => Ok v
      | JsonDecodeError _ => Ok (PDict [])
      | JsonOtherError e => Raise e
      end
  | _ => let* _ := py_slice_upto data 100 in Ok (PDict [])
  end.

(** [ReportGeneratorService._generate_executive_summary] *)
Definition generate_executive_summary (product sentiment : PyVal) : py_result string :=
  let* product_name := py_get product "name" (PStr "Analyzed Product") in
  let* description := py_get product "description"
        (PStr "A consumer product available across major North American e-commerce platforms.") in
  let* score := py_get sentiment "overall_score" (PStr "N/A") in
  let* rate := py_get sentiment "recommendation_rate" (PInt 0) in
  let* recommendation := py_mul_100 rate in
  let* recommendation_s := py_format_f env 0 recommendation in
  Ok ("
### Executive Summary

**" ++ py_str env product_name ++ "** presents a favorable market positioning with a customer satisfaction score of **" ++ py_str env score ++ "/5** and a recommendation rate of **" ++ recommendation_s ++ "%**.

**Product Description:** " ++ py_str env description ++ "

The analysis reveals significant opportunities for price positioning optimization and customer experience improvement.
").

Definition product_placeholder : string := "### Product Data
*Data not available*
".

(** [ReportGeneratorService._generate_product_section] *)
Definition generate_product_section (product : PyVal) : py_result string :=
  if negb (truthy product) then Ok product_placeholder
  else
    let* price_range := py_get product "price_range" (PDict []) in
    let* sellers := py_get product "top_sellers" (PList []) in
    let* top3 := py_slice_upto sellers 3 in
    let* items := py_iter top3 in
    let* lines := py_map_m (fun s =>
          let* n := py_get s "name" (PStr "N/A") in
          let* p := py_get s "price" (PStr "N/A") in
          Ok ("  - " ++ py_str env n ++ ": $" ++ py_str env p ++ nl)) items in
    let sellers_text := String.concat "" lines in
    let* name := py_get product "name" (PStr "N/A") in
    let* avg := py_get product "average_price" (PStr "N/A") in
    let* pmin := py_get price_range "min" (PStr "N/A") in
    let* pmax := py_get price_range "max" (PStr "N/A") in
    let* avail := py_get product "availability" (PStr "N/A") in
    let* nsell := py_get product "sellers_count" (PStr "N/A") in
    let* cat := py_get product "category" (PStr "N/A") in
    Ok ("
### 1. Product Analysis

| Metric | Value |
|--------|-------|
| **Product** | " ++ py_str env name ++ " |
| **Average Price** | $" ++ py_str env avg ++ " |
| **Price Range** | $" ++ py_str env pmin ++ " - $" ++ py_str env pmax ++ " |
| **Availability** | " ++ py_str env avail ++ " |
| **Number of Sellers** | " ++ py_str env nsell ++ " |
| **Category** | " ++ py_str env cat ++ " |

**Top Sellers:**
" ++ sellers_text ++ "
").

(** [nl.join([f"- {o}" for o in xs])] *)
Definition bullet_lines (xs : PyVal) : py_result string :=
  let* items := py_iter xs in
  Ok (py_join nl (map (fun o => "- " ++ py_str env o) items)).

Definition competitor_placeholder : string := "### 2. Competitive Analysis
*Data not available*
".

(** [ReportGeneratorService._generate_competitor_section] *)
Definition generate_competitor_section (competitors : PyVal) : py_result string :=
  if negb (truthy competitors) then Ok competitor_placeholder
  else
    let* comp_list := py_get competitors "competitors" (PList []) in
    let* concentration := py_get competitors "market_concentration" (PStr "N/A") in
    let header := "| Competitor | Market Share | Strategy | Segment |
|------------|--------------|----------|----------|
" in
    let* top5 := py_slice_upto comp_list 5 in
    let* items := py_iter top5 in
    let* rows := py_map_m (fun c =>
          let* n := py_get c "name" (PStr "N/A") in
          let* share := py_get c "market_share" (PInt 0) in
          let* share_s := py_format_f env 1 share in
          let* strat := py_get c "price_strategy" (PStr "N/A") in
          let* seg := py_get c "target_segment" (PStr "N/A") in
          Ok ("| " ++ py_str env n ++ " | " ++ share_s ++ "% | " ++ py_str env strat ++ " | "
              ++ py_str env seg ++ " |" ++ nl)) items in
    let comp_table := header ++ String.concat "" rows in
    let* opportunities := py_get competitors "opportunities" (PList []) in
    let* opp_text := bullet_lines opportunities in
    let* threats := py_get competitors "threats" (PList []) in
    let* threat_text := bullet_lines threats in
    Ok ("
### 2. Competitive Analysis

**Market Concentration:** " ++ py_str env concentration ++ "

" ++ comp_table ++ "

**Identified Opportunities:**
" ++ opp_text ++ "

**Threats:**
" ++ threat_text ++ "
").

(** One line of the theme lists of the sentiment section. *)
Definition theme_line (t : PyVal) : py_result string :=
  let* th := py_get t "theme" (PStr "N/A") in
  let* impact := py_get t "impact_score" (PInt 0) in
  let* mentions := py_get t "mention_count" (PInt 0) in
  Ok ("- **" ++ py_str env th ++ "** (impact: " ++ py_str env impact ++ "/10, mentions: "
      ++ py_str env mentions ++ ")").

Definition theme_lines (themes : PyVal) (n : nat) : py_result string :=
  let* top := py_slice_upto themes n in
  let* items := py_iter top in
  let* lines := py_map_m theme_line items in
  Ok (py_join nl lines).

(** [{x.get(k, 0) * 100:.0f}] *)
Definition percent_field (x : PyVal) (k : string) : py_result string :=
  let* v := py_get x k (PInt 0) in
  let* w := py_mul_100 v in
  py_format_f env 0 w.

Definition sentiment_placeholder : string := "### 3. Customer Sentiment Analysis
*Data not available*
".

(** [ReportGeneratorService._generate_sentiment_section] *)
Definition generate_sentiment_section (sentiment : PyVal) : py_result string :=
  if negb (truthy sentiment) then Ok sentiment_placeholder
  else
    let* breakdown := py_get sentiment "sentiment_breakdown" (PDict []) in
    let* themes := py_get sentiment "key_themes" (PDict []) in
    let* positive_themes := py_get themes "positive" (PList []) in
    let* pos_text := theme_lines positive_themes 4 in
    let* negative_themes := py_get themes "negative" (PList []) in
    let* neg_text := theme_lines negative_themes 3 in
    let* score := py_get sentiment "overall_score" (PStr "N/A") in
    let* total := py_get sentiment "total_reviews" (PStr "N/A") in
    let* rate := percent_field sentiment "recommendation_rate" in
    let* nps := py_get sentiment "nps_score" (PStr "N/A") in
    let* trend := py_get sentiment "trend" (PStr "N/A") in
    let* conf := py_get sentiment "confidence_level" (PStr "N/A") in
    let* pos := percent_field breakdown "positive" in
    let* neg := percent_field breakdown "negative" in
    let* neu := percent_field breakdown "neutral" in
    Ok ("
### 3. Customer Sentiment Analysis

| Indicator | Value |
|-----------|-------|
| **Overall Score** | " ++ py_str env score ++ "/5 |
| **Number of Reviews** | " ++ py_str env total ++ " |
| **Recommendation Rate** | " ++ rate ++ "% |
| **NPS** | " ++ py_str env nps ++ " |
| **Trend** | " ++ py_str env trend ++ " |
| **Confidence** | " ++ py_str env conf ++ " |

**Sentiment Distribution:**
- Positive: " ++ pos ++ "%
- Negative: " ++ neg ++ "%
- Neutral: " ++ neu ++ "%

**Major Positive Themes:**
" ++ pos_text ++ "

**Areas for Improvement:**
" ++ neg_text ++ "
").

Definition distribution_rec : string :=
  "**Distribution:** Strengthen presence on high-traffic platforms (Amazon, Walmart, Target, Best Buy)".
Definition retention_rec : string :=
  "**Retention:** Implement post-purchase follow-up program to improve NPS".

(** The price recommendation: [if product:] ... *)
Definition price_recs (product : PyVal) : py_result (list string) :=
  if negb (truthy product) then Ok []
  else
    let* price_range := py_get product "price_range" (PDict []) in
    if negb (truthy price_range) then Ok []
    else
      let* min_price := py_get price_range "min" (PInt 0) in
      let* p := py_mul_1_1 env min_price in
      let* p_s := py_format_f env 2 p in
      Ok ["**Pricing Strategy:** Position price around $" ++ p_s
          ++ " to be competitive while preserving margins"].

(** The competition recommendation: [if competitors:] ... *)
Definition competition_recs (competitors : PyVal) : py_result (list string) :=
  if negb (truthy competitors) then Ok []
  else
    let* opportunities := py_get competitors "opportunities" (PList []) in
    if negb (truthy opportunities) then Ok []
    else
      let* o := py_index0 opportunities in
      Ok ["**Market Opportunity:** " ++ py_str env o].

(** The sentiment recommendations: [if sentiment:] ... *)
Definition sentiment_recs (sentiment : PyVal) : py_result (list string) :=
  if negb (truthy sentiment) then Ok []
  else
    let* kt := py_get sentiment "key_themes" (PDict []) in
    let* negative_themes := py_get kt "negative" (PList []) in
    let* r1 := (if negb (truthy negative_themes) then Ok []
                else
                  let* t := py_index0 negative_themes in
                  let* top_issue := py_get t "theme" (PStr "weaknesses") in
                  Ok ["**Priority Improvement:** Address the " ++ py_str env top_issue
                      ++ " issue identified in reviews"]) in
    let* kt' := py_get sentiment "key_themes" (PDict []) in
    let* positive_themes := py_get kt' "positive" (PList []) in
    let* r2 := (if negb (truthy positive_themes) then Ok []
                else
                  let* t := py_index0 positive_themes in
                  let* strength := py_get t "theme" (PStr "strengths") in
                  Ok ["**Competitive Advantage:** Capitalize on " ++ py_str env strength
                      ++ " in marketing communications"]) in
    Ok (r1 ++ r2)%list.

Fixpoint numbered (i : nat) (l : list string) : list string :=
  match l with
  | [] => []
  | r :: rest => (z_dec (Z.of_nat (S i)) ++ ". " ++ r) :: numbered (S i) rest
  end.

(** [ReportGeneratorService._generate_recommendations] *)
Definition generate_recommendations (product competitors sentiment : PyVal) : py_result string :=
  let* r1 := price_recs product in
  let* r2 := competition_recs competitors in
  let* r3 := sentiment_recs sentiment in
  let recommendations := (r1 ++ r2 ++ r3 ++ [distribution_rec; retention_rec])%list in
  let rec_text := py_join nl (numbered 0 (firstn 6 recommendations)) in
  Ok ("
### 4. Strategic Recommendations

" ++ rec_text ++ "
").

(** [ReportGeneratorService._generate_action_plan] *)
Definition generate_action_plan : string := "
### 5. Action Plan

| Priority | Action | Timeline | Expected Impact |
|----------|--------|----------|-----------------|
| " ++ red_icon ++ " High | Pricing strategy adjustment | 2 weeks | +15% conversions |
| " ++ orange_icon ++ " Medium | Customer service improvement | 1 month | +10 pts NPS |
| " ++ green_icon ++ " Normal | Product listing optimization | 3 weeks | +8% traffic |
| " ++ green_icon ++ " Normal | Loyalty program | 2 months | +20% retention |

---
*Report automatically generated by Market Analysis Agent*
".

(** The header token of the report, also searched by [run]. *)
Definition report_marker : string := chart_icon ++ " Market Analysis Report".

(** [ReportGeneratorService.generate] *)
Definition generate (product_data competitor_data sentiment_data : PyVal) : py_result string :=
  let* product := parse_json_safely product_data in
  let* competitors := parse_json_safely competitor_data in
  let* sentiment := parse_json_safely sentiment_data in
  let date := now_mdY_HM env in
  let* summary := generate_executive_summary product sentiment in
  let* product_s := generate_product_section product in
  let* competitor_s := generate_competitor_section competitors in
  let* sentiment_s := generate_sentiment_section sentiment in
  let* recs := generate_recommendations product competitors sentiment in
  let report := "
# " ++ report_marker ++ "

**Generation Date:** " ++ date ++ "

**Market:** North America

---

" ++ summary ++ "

---

" ++ product_s ++ "

" ++ competitor_s ++ "

" ++ sentiment_s ++ "

" ++ recs ++ "

" ++ generate_action_plan ++ "
" in
  Ok (py_strip report).

End Report.

(* ------------------------------------------------------------------ *)
(** ** The tool contract: [src/tools/base.py] and the [@tool] entry points *)

(** A tool-call request of the model and the transcript messages
    (langchain_core.messages). *)
Record tool_call : Type := mk_tool_call {
  tc_name : string;
  tc_args : list (string * PyVal);
  tc_id : string
}.

Inductive message : Type :=
| SystemMessage (content : string)
| HumanMessage (content : string)
| AIMessage (content : string) (tool_calls : list tool_call)
| ToolMessage (content : string) (name : string) (tool_call_id : string) (status : string).

Section Tools.

Variable env : PyEnv.

(** [tool_error_handler(tool_name)(func)] called with keyword arguments: the log lines it
    emits and the outcome. *)
Definition tool_error_handler {A : Type} (tool_name : string)
    (func : list (string * PyVal) -> py_result A) (kwargs : list (string * PyVal))
    : list log_line * py_result A :=
  let logger := "tools." ++ tool_name in
  let started := LogInfo logger ("Executing " ++ tool_name ++ " with args: (), kwargs: "
                                  ++ py_repr env (PDict kwargs)) in
  match func kwargs with
  | Ok result =>
      ([started; LogInfo logger (tool_name ++ " completed in " ++ elapsed_ms env ++ "ms")],
       Ok result)
  | Raise e =>
      if is_Exception e then
        ([started; LogError logger (tool_name ++ " failed: " ++ exc_str e)],
         Raise (ToolError tool_name (exc_str e) (Some e)))
      else ([started], Raise e)
  end.

(** The argument schema that [@tool] derives from a signature of [str]
    parameters: each one required and a str; the validated mapping holds
    exactly the declared fields. *)
Definition validate_str_args (params : list string) (kwargs : list (string * PyVal))
    : py_result (list (string * PyVal)) :=
  py_map_m (fun p => match assoc p kwargs with
                     | Some (PStr s) => Ok (p, PStr s)
                     | Some _ => Raise (PyException "ValidationError" (p ++ ": Input should be a valid string"))
                     | None => Raise (PyException "ValidationError" (p ++ ": Field required"))
                     end) params.

Definition str_arg (kwargs : list (string * PyVal)) (p : string) : py_result string :=
  match assoc p kwargs with
  | Some (PStr s) => Ok s
  | _ => Raise (type_error ("missing required argument: '" ++ p ++ "'"))
  end.

(** [@tool] over [@tool_error_handler(name)] over [body]. *)
Definition as_tool (tool_name : string) (params : list string)
    (body : list (string * PyVal) -> py_result PyVal) (kwargs : list (string * PyVal))
    : list log_line * py_result PyVal :=
  match validate_str_args params kwargs with
  | Raise e => ([], Raise e)
  | Ok args => tool_error_handler tool_name body args
  end.

Definition scrape_product_data_body (kwargs : list (string * PyVal)) : py_result PyVal :=
  let* name := str_arg kwargs "product_name" in
  let* fields := product_scraper_scrape env name in
  Ok (PDict fields).

Definition analyze_competitors_body (kwargs : list (string * PyVal)) : py_result PyVal :=
  let* category := str_arg kwargs "product_category" in
  let* fields := competitor_analyzer_analyze env category in
  Ok (PDict fields).

Definition analyze_sentiment_body (kwargs : list (string * PyVal)) : py_result PyVal :=
  let* name := str_arg kwargs "product_name" in
  let* fields := sentiment_analyzer_analyze env name in
  Ok (PDict fields).

Definition generate_report_body (kwargs : list (string * PyVal)) : py_result PyVal :=
  let* p := str_arg kwargs "product_data" in
  let* c := str_arg kwargs "competitor_data" in
  let* s := str_arg kwargs "sentiment_data" in
  let* report := generate env (PStr p) (PStr c) (PStr s) in
  Ok (PStr report).

Definition scrape_product_data := as_tool "scrape_product_data" ["product_name"] scrape_product_data_body.
Definition analyze_competitors := as_tool "analyze_competitors" ["product_category"] analyze_competitors_body.
Definition analyze_sentiment := as_tool "analyze_sentiment" ["product_name"] analyze_sentiment_body.
Definition generate_report :=
  as_tool "generate_report" ["product_data"; "competitor_data"; "sentiment_data"] generate_report_body.

(** [MarketAnalysisGraph.tools], by tool name. *)
Definition tools : list (string * (list (string * PyVal) -> list log_line * py_result PyVal)) :=
  [("scrape_product_data", scrape_product_data);
   ("analyze_competitors", analyze_competitors);
   ("analyze_sentiment", analyze_sentiment);
   ("generate_report", generate_report)].

Definition tool_names : list string := map fst tools.

(** LangGraph [ToolNode(self.tools)]: one tool call. *)
Definition msg_content_output (v : PyVal) : string :=
  match v with
  | PStr s => s
  | _ => json_dumps env v
  end.

Definition invalid_tool_name_error (requested : string) : string :=
  "Error: " ++ requested ++ " is not a valid tool, try one of [" ++ py_join ", " tool_names ++ "].".

Definition tool_node_run_one (call : tool_call) : py_result message :=
  match assoc (tc_name call) tools with
  | None => Ok (ToolMessage (invalid_tool_name_error (tc_name call)) (tc_name call) (tc_id call) "error")
  | Some tool =>
      match snd (tool (tc_args call)) with
      | Ok v => Ok (ToolMessage (msg_content_output v) (tc_name call) (tc_id call) "success")
      | Raise e =>
          match tool_error_policy env e with
          | Some c => Ok (ToolMessage c (tc_name call) (tc_id call) "error")
          | None => Raise e
          end
      end
  end.

End Tools.

(* ------------------------------------------------------------------ *)
(** ** The control loop: [src/agent/graph.py] *)

(** [AgentState]; the keys [run] passes beyond [messages] and
    [product_name] are never read. *)
Record AgentState : Type := mk_state {
  messages : list message;
  product_name : string
}.

(** The [add_messages] reducer: the new messages carry fresh ids, so they
    are appended. *)
Definition add_messages (st : AgentState) (new : list message) : AgentState :=
  mk_state (messages st ++ new)%list (product_name st).

Definition last_message (l : list message) : option message :=
  match rev l with
  | [] => None
  | m :: _ => Some m
  end.

Definition content_of (m : message) : string :=
  match m with
  | SystemMessage c | HumanMessage c | AIMessage c _ | ToolMessage c _ _ _ => c
  end.

(** The fixed instruction of [_agent_node]. *)
Definition system_prompt : string := "You are an expert e-commerce market analysis agent.

You must analyze the requested product using the available tools in this order:
1. scrape_product_data - to collect product data
2. analyze_competitors - to analyze competition (use the product category)
3. analyze_sentiment - to evaluate customer sentiment
4. generate_report - to create the final report (pass data as JSON)

Execute each tool sequentially and use the results for the final report.
IMPORTANT: You MUST call generate_report as the final step. Do not just summarize the results yourself.
If you have called generate_report, your job is done.".

(** The language model bound to the tools: from the messages it is sent,
    the content and the tool calls of its [AIMessage], or an exception. *)
Definition chat_model : Type := list message -> py_result (string * list tool_call).

Inductive route : Type := Continue | End_.

Inductive node : Type := Agent | Tools.

Section Graph.

Variable env : PyEnv.
Variable llm : chat_model.

(** [MarketAnalysisGraph._agent_node] *)
Definition agent_node (st : AgentState) : py_result AgentState :=
  let* response := llm (SystemMessage system_prompt :: messages st) in
  Ok (add_messages st [AIMessage (fst response) (snd response)]).

(** [MarketAnalysisGraph._should_continue] *)
Definition should_continue (st : AgentState) : py_result route :=
  match last_message (messages st) with
  | None => Raise (PyException "IndexError" "list index out of range")
  | Some (AIMessage _ (_ :: _)) => Ok Continue
  | Some _ => Ok End_
  end.

(** The ["tools"] node, [ToolNode(self.tools)]: every call of the last
    [AIMessage], in order. *)
Definition tools_node (st : AgentState) : py_result AgentState :=
  match last_message (messages st) with
  | Some (AIMessage _ calls) =>
      let* outputs := py_map_m (tool_node_run_one env) calls in
      Ok (add_messages st outputs)
  | _ => Raise (PyException "ValueError" "No AIMessage found in input")
  end.

(** LangGraph's [GraphRecursionError], whose text [create_error_message]
    ends with a troubleshooting line. *)
Definition graph_recursion_error (limit : nat) : py_exc :=
  PyException "GraphRecursionError"
    ("Recursion limit of " ++ z_dec (Z.of_nat limit)
     ++ " reached without hitting a stop condition. You can increase the limit by setting the `recursion_limit` config key."
     ++ nl ++ "For troubleshooting, visit: https://python.langchain.com/docs/troubleshooting/errors/GRAPH_RECURSION_LIMIT").

(** The compiled graph of [_build_graph], run by LangGraph's Pregel loop:
    one node per super-step, entry ["agent"], ["agent"] followed by
    [_should_continue] (["continue"] to ["tools"], ["end"] to END),
    ["tools"] back to ["agent"].  At most [fuel] further super-steps run;
    one more is a [GraphRecursionError].  The first component lists the
    nodes executed. *)
Fixpoint pregel (limit fuel : nat) (nd : node) (st : AgentState) : list node * py_result AgentState :=
  match fuel with
  | O => ([], Raise (graph_recursion_error limit))
  | S fuel' =>
      match nd with
      | Agent =>
          match agent_node st with
          | Raise e => ([Agent], Raise e)
          | Ok st' =>
              match should_continue st' with
              | Raise e => ([Agent], Raise e)
              | Ok End_ => ([Agent], Ok st')
              | Ok Continue =>
                  let (trace, r) := pregel limit fuel' Tools st' in (Agent :: trace, r)
              end
          end
      | Tools =>
          match tools_node st with
          | Raise e => ([Tools], Raise e)
          | Ok st' => let (trace, r) := pregel limit fuel' Agent st' in (Tools :: trace, r)
          end
      end
  end.

(** [self.graph.invoke(state)] with the recursion limit of the run
    configuration ([run] passes none, so LangGraph's default applies). *)
Definition graph_invoke (limit : nat) (st : AgentState) : list node * py_result AgentState :=
  pregel limit limit Agent st.

End Graph.

(** LangGraph's default [recursion_limit]. *)
Definition DEFAULT_RECURSION_LIMIT : nat := 25.

(** The report extraction of [MarketAnalysisGraph.run]. *)
Definition calls_generate_report_first (m : message) : bool :=
  match m with
  | AIMessage _ (tc :: _) => String.eqb (tc_name tc) "generate_report"
  | _ => false
  end.

Definition is_human (m : message) : bool :=
  match m with HumanMessage _ => true | _ => false end.

(** [message.name]: set on tool results; [None] on the other messages. *)
Definition name_attr (m : message) : option string :=
  match m with
  | ToolMessage _ n _ _ => Some n
  | _ => None
  end.

(** First loop, over [reversed(result["messages"])]. *)
Fixpoint scan_for_marker (rev_msgs : list message) : string :=
  match rev_msgs with
  | [] => ""
  | m :: rest =>
      if calls_generate_report_first m then scan_for_marker rest
      else if contains report_marker (content_of m) then content_of m
      else if negb (is_human m) && contains report_marker (content_of m) then content_of m
      else scan_for_marker rest
  end.

(** Second loop: the latest message named ["generate_report"]. *)
Fixpoint scan_for_report_tool (rev_msgs : list message) : string :=
  match rev_msgs with
  | [] => ""
  | m :: rest =>
      match name_attr m with
      | Some n => if String.eqb n "generate_report" then content_of m else scan_for_report_tool rest
      | None => scan_for_report_tool rest
      end
  end.

Definition extract_report (msgs : list message) : string :=
  let r1 := scan_for_marker (rev msgs) in
  let r2 := if String.eqb r1 "" then scan_for_report_tool (rev msgs) else r1 in
  if String.eqb r2 "" then
    match last_message msgs with
    | Some m => content_of m
    | None => r2
    end
  else r2.

Record run_output : Type := mk_output {
  out_product_name : string;
  report : string;
  steps_executed : nat
}.

Definition initial_state (name : string) : AgentState :=
  mk_state [HumanMessage ("Analyze the market for the product: " ++ name)] name.

(** [MarketAnalysisGraph.run], with the recursion limit in force. *)
Definition run (env : PyEnv) (llm : chat_model) (limit : nat) (name : string)
    : list node * py_result run_output :=
  let (trace, r) := graph_invoke env llm limit (initial_state name) in
  (trace,
   let* result := r in
   Ok (mk_output name (extract_report (messages result)) (length (messages result)))).

(* ------------------------------------------------------------------ *)
(** ** Concrete collaborators for the scenarios *)

(** A runtime where every tool argument fails to decode as JSON, the
    services return small records and [ToolNode] turns every tool
    exception into an error message (LangGraph's [handle_tool_errors=True]). *)
Definition demo_env : PyEnv := {|
  json_loads := fun _ => JsonDecodeError "Expecting value: line 1 column 1 (char 0)";
  json_dumps := fun _ => "{}";
  float_repr := fun _ => "0.0";
  float_format_f := fun n _ => "0" ++ match n with O => "" | _ => "." ++ zeros n end;
  big_int_to_float := fun _ => Raise (PyException "OverflowError" "int too large to convert to float");
  str_repr := fun s => "'" ++ s ++ "'";
  now_mdY_HM := "10/16/2026 09:00";
  elapsed_ms := "1.00";
  product_scraper_scrape := fun n => Ok [("name", PStr n)];
  competitor_analyzer_analyze := fun c => Ok [("category", PStr c)];
  sentiment_analyzer_analyze := fun n => Ok [("product", PStr n)];
  tool_error_policy := fun e => Some ("Error: " ++ exc_str e ++ nl ++ " Please fix your mistakes.")
|}.

(** The same runtime with a scraping service that always fails. *)
Definition failing_scraper_env : PyEnv := {|
  json_loads := json_loads demo_env;
  json_dumps := json_dumps demo_env;
  float_repr := float_repr demo_env;
  float_format_f := float_format_f demo_env;
  big_int_to_float := big_int_to_float demo_env;
  str_repr := str_repr demo_env;
  now_mdY_HM := now_mdY_HM demo_env;
  elapsed_ms := elapsed_ms demo_env;
  product_scraper_scrape := fun _ => Raise (PyException "ConnectionError" "connection refused");
  competitor_analyzer_analyze := competitor_analyzer_analyze demo_env;
  sentiment_analyzer_analyze := sentiment_analyzer_analyze demo_env;
  tool_error_policy := tool_error_policy demo_env
|}.

Definition is_ai_msg (m : message) : bool :=
  match m with AIMessage _ _ => true | _ => false end.

Definition is_tool_msg (m : message) : bool :=
  match m with ToolMessage _ _ _ _ => true | _ => false end.

Definition count_ai (msgs : list message) : nat := length (filter is_ai_msg msgs).

Definition count_tool (msgs : list message) : nat := length (filter is_tool_msg msgs).

Definition call (n : string) (args : list (string * PyVal)) (id : string) : tool_call :=
  mk_tool_call n args id.

(** The happy-path model: tool A, B, C, then the final tool, then an answer
    without tool calls; its turn is the number of model messages so far. *)
Definition happy_llm : chat_model := fun msgs =>
  match count_ai msgs with
  | 0 => Ok ("", [call "scrape_product_data" [("product_name", PStr "wireless earbuds")] "1"])
  | 1 => Ok ("", [call "analyze_competitors" [("product_category", PStr "Electronics/Audio")] "2"])
  | 2 => Ok ("", [call "analyze_sentiment" [("product_name", PStr "wireless earbuds")] "3"])
  | 3 => Ok ("", [call "generate_report" [("product_data", PStr "p"); ("competitor_data", PStr "c");
                                          ("sentiment_data", PStr "s")] "4"])
  | _ => Ok ("The report has been generated.", [])
  end.

(** A model that always requests a tool that is not registered. *)
Definition unknown_tool_llm : chat_model := fun _ =>
  Ok ("", [call "nonexistent_tool" [] "x"]).

(** The number of model turns (["agent"] super-steps) of a trace. *)
Definition model_invocations (tr : list node) : nat :=
  length (filter (fun n => match n with Agent => true | Tools => false end) tr).

(** The content of the last message, or "" for an empty transcript. *)
Definition last_content (msgs : list message) : string :=
  match last_message msgs with
  | Some m => content_of m
  | None => ""
  end.

Definition is_report_tool_result (m : message) : bool :=
  match name_attr m with
  | Some n => String.eqb n "generate_report"
  | None => false
  end.

(** The extraction order of the spec (section 4.4), read literally: the
    latest tool result of the final tool; else the latest model message
    containing the report marker; else the last message. *)
Definition spec_extract (msgs : list message) : string :=
  match find (fun m => match m with
                       | ToolMessage _ n _ _ => String.eqb n "generate_report"
                       | _ => false
                       end) (rev msgs) with
  | Some m => content_of m
  | None =>
      match find (fun m => match m with
                           | AIMessage c _ => contains report_marker c
                           | _ => false
                           end) (rev msgs) with
      | Some m => content_of m
      | None => last_content msgs
      end
  end.

(** The messages the first loop of [run] accepts. *)
Definition marker_candidate (m : message) : bool :=
  negb (calls_generate_report_first m) && contains report_marker (content_of m).

(** The extraction order as [run] implements it: the latest message of
    any role (model messages whose first tool call is generate_report
    aside) containing the marker; else the latest message named
    generate_report when its content is not empty; else the last message. *)
Definition amended_extract (msgs : list message) : string :=
  match find marker_candidate (rev msgs) with
  | Some m => content_of m
  | None =>
      match find is_report_tool_result (rev msgs) with
      | Some m => if String.eqb (content_of m) "" then last_content msgs else content_of m
      | None => last_content msgs
      end
  end.

(** A finished transcript where the model, after the report tool ran,
    answers with a message that quotes the report header. *)
Definition report_payload : string := "# " ++ report_marker ++ nl ++ nl ++ "**Market:** North America".

Definition quoting_transcript : list message :=
  [HumanMessage "Analyze the market for the product: wireless earbuds";
   AIMessage "" [call "generate_report" [("product_data", PStr "{}"); ("competitor_data", PStr "{}");
                                         ("sentiment_data", PStr "{}")] "4"];
   ToolMessage report_payload "generate_report" "4" "success";
   AIMessage ("Here is the " ++ report_marker ++ " you asked for.") []].

(** The trace and the final state of the happy path. *)
Definition happy_trace : list node :=
  fst (graph_invoke demo_env happy_llm DEFAULT_RECURSION_LIMIT (initial_state "wireless earbuds")).

Definition happy_final : AgentState :=
  match snd (graph_invoke demo_env happy_llm DEFAULT_RECURSION_LIMIT (initial_state "wireless earbuds")) with
  | Ok st => st
  | Raise _ => initial_state "wireless earbuds"
  end.

(** The report of [generate] when none of its three inputs holds data:
    the executive summary and the recommendations with their default
    values, the three placeholders and the action plan. *)
Definition empty_summary : string := "
### Executive Summary

**Analyzed Product** presents a favorable market positioning with a customer satisfaction score of **N/A/5** and a recommendation rate of **0%**.

**Product Description:** A consumer product available across major North American e-commerce platforms.

The analysis reveals significant opportunities for price positioning optimization and customer experience improvement.
".

Definition empty_recommendations : string := "
### 4. Strategic Recommendations

1. " ++ distribution_rec ++ nl ++ "2. " ++ retention_rec ++ "
".

Definition empty_report_tail : string := "

**Market:** North America

---

" ++ empty_summary ++ "

---

" ++ product_placeholder ++ "

" ++ competitor_placeholder ++ "

" ++ sentiment_placeholder ++ "

" ++ empty_recommendations ++ "

" ++ generate_action_plan ++ "
".

Definition empty_report (env : PyEnv) : string :=
  py_strip ("
# " ++ report_marker ++ "

**Generation Date:** " ++ now_mdY_HM env ++ empty_report_tail).

Definition report_kwargs (p c s : string) : list (string * PyVal) :=
  [("product_data", PStr p); ("competitor_data", PStr c); ("sentiment_data", PStr s)].

(* ------------------------------------------------------------------ *)
(** ** [src/api/routes.py] *)

(** The text a content block contributes in [extract_text_from_response]:
    the ['text'] of a dict whose ['type'] is ['text'] ([''] when it has
    none), a [str] itself, nothing for any other item. *)
Definition block_text (block : PyVal) : list PyVal :=
  match block with
  | PDict d =>
      match assoc "type" d with
      | Some (PStr t) =>
          if String.eqb t "text"
          then [match assoc "text" d with Some x => x | None => PStr "" end]
          else []
      | _ => []
      end
  | PStr s => [PStr s]
  | _ => []
  end.

(** [''.join(parts)]: every item must be a [str]. *)
Fixpoint py_concat_strs (i : nat) (parts : list PyVal) : py_result string :=
  match parts with
  | [] => Ok ""
  | PStr s :: r => let* t := py_concat_strs (S i) r in Ok (s ++ t)
  | v :: _ => Raise (type_error ("sequence item " ++ z_dec (Z.of_nat i) ++ ": expected str instance, "
                                 ++ type_name v ++ " found"))
  end.

(** [extract_text_from_response(response)]; a [PyVal] has no [content]
    attribute, so [getattr(response, 'content', response)] is the value
    itself. *)
Definition extract_text_from_response (env : PyEnv) (response : PyVal) : py_result string :=
  match response with
  | PStr s => Ok s
  | PList blocks => py_concat_strs 0 (flat_map block_text blocks)
  | v => Ok (py_str env v)
  end.

(** [schemas.AnalysisResponse] *)
Record AnalysisResponse : Type := mk_response {
  success : bool;
  resp_product_name : string;
  resp_report : string;
  resp_steps_executed : nat;
  resp_error : option string
}.

(** What a client of [POST /analyze] receives: the response model, an
    [HTTPException] raised by the handler, or FastAPI's 422 for a request
    body that fails [AnalysisRequest] validation. *)
Inductive http_reply : Type :=
| HttpOk (body : AnalysisResponse)
| HttpError (status_code : Z) (detail : string)
| HttpUnprocessable (field : string).

(** [analyze_market(request)] behind FastAPI's validation of
    [AnalysisRequest] ([product_name] has [min_length=1]; the other fields
    have defaults and are not read).  [graph_init] is the outcome of
    [MarketAnalysisGraph()] (settings and model client); the graph is
    invoked without a config, so with the default recursion limit.  An
    [Exception] becomes [HTTPException(500, str(e))]; anything else
    propagates.  The trace is that of the graph run. *)
Definition analyze_market (env : PyEnv) (llm : chat_model) (graph_init : py_result unit)
    (request_product_name : string) : list node * py_result http_reply :=
  if String.eqb request_product_name "" then ([], Ok (HttpUnprocessable "product_name"))
  else
    let (trace, r) :=
      match graph_init with
      | Raise e => ([], Raise e)
      | Ok _ => run env llm DEFAULT_RECURSION_LIMIT request_product_name
      end in
    let handled :=
      let* result := r in
      let* report_text := extract_text_from_response env (PStr (report result)) in
      Ok (mk_response true (out_product_name result) report_text (steps_executed result) None) in
    (trace,
     match handled with
     | Ok resp => Ok (HttpOk resp)
     | Raise e => if is_Exception e then Ok (HttpError 500 (exc_str e)) else Raise e
     end).

(* ------------------------------------------------------------------ *)
(** ** [src/agent/state.py] *)

(** [s.replace('\\n', '\n')]: every backslash followed by [n], left to
    right and without overlap, becomes a newline. *)
Fixpoint replace_escaped_newlines (s : string) : string :=
  match s with
  | EmptyString => EmptyString
  | String c r =>
      if Ascii.eqb c "\"%char then
        match r with
        | String d r' =>
            if Ascii.eqb d "n"%char then String (ascii_of_nat 10) (replace_escaped_newlines r')
            else String c (replace_escaped_newlines r)
        | EmptyString => String c EmptyString
        end
      else String c (replace_escaped_newlines r)
  end.

(** [AnalysisResponse.formatted_report] *)
Definition formatted_report (report : string) : string := replace_escaped_newlines report.

(* ------------------------------------------------------------------ *)
(** ** [src/tools/competitor_analyzer.py] *)

Record CompetitorProfile : Type := mk_profile {
  cp_name : string;
  cp_market_share : float;
  cp_price_strategy : string;
  cp_price_index : float;
  cp_strengths : list string;
  cp_weaknesses : list string;
  cp_target_segment : string;
  cp_online_presence_score : float
}.

Record CompetitorAnalysisResult : Type := mk_analysis {
  car_category : string;
  car_analysis_date : string;
  car_competitors : list CompetitorProfile;
  car_market_concentration : string;
  car_total_market_share_analyzed : float;
  car_opportunities : list string;
  car_threats : list string
}.

(** [sum(xs)] of floats: [0 + x1 + x2 + ...], left to right. *)
Definition py_sum_floats (xs : list float) : float :=
  fold_left (fun acc x => (acc + x)%float) xs 0%float.

(** [float(n)] of a list length. *)
Definition float_of_nat (n : nat) : float := PrimFloat.of_uint63 (Uint63.of_Z (Z.of_nat n)).

(** [min(a, b)]: [b] when [b < a], else [a]. *)
Definition py_min_float (a b : float) : float := if PrimFloat.ltb b a then b else a.

(** [sorted(xs, reverse=True)]: stable, so equal values keep their order;
    the market shares it sorts are validated numbers in [0, 100]. *)
Fixpoint insert_desc (x : float) (l : list float) : list float :=
  match l with
  | [] => [x]
  | y :: r => if PrimFloat.ltb y x then x :: y :: r else y :: insert_desc x r
  end.

Definition sort_desc (xs : list float) : list float := fold_left (fun acc x => insert_desc x acc) xs [].

Definition aggressive_price_opportunity : string := "Opportunity for aggressive price positioning".
Definition digital_opportunity : string := "Digital differentiation potential".
Definition service_opportunity : string := "Customer service differentiation".
Definition innovation_opportunity : string := "Innovation in underserved segments".
Definition dominant_threat : string := "Dominant position of a major player".

(** [CompetitorAnalyzerService._assess_market_concentration] *)
Definition assess_market_concentration (competitors : list CompetitorProfile) : string :=
  let top3_share := py_sum_floats (firstn 3 (sort_desc (map cp_market_share competitors))) in
  if PrimFloat.ltb 70 top3_share then "Highly concentrated"
  else if PrimFloat.ltb 50 top3_share then "Moderately concentrated"
  else "Fragmented".

(** [CompetitorAnalyzerService._identify_opportunities] *)
Definition identify_opportunities (competitors : list CompetitorProfile) : list string :=
  let avg_price_index :=
    match competitors with
    | [] => 1%float
    | _ => (py_sum_floats (map cp_price_index competitors) / float_of_nat (length competitors))%float
    end in
  let o1 := if PrimFloat.ltb 1.1 avg_price_index then [aggressive_price_opportunity] else [] in
  let o2 := if existsb (fun c => PrimFloat.ltb (cp_online_presence_score c) 7) competitors
            then [digital_opportunity] else [] in
  firstn 4 (o1 ++ o2 ++ [service_opportunity; innovation_opportunity])%list.

(** [CompetitorAnalyzerService._identify_threats] *)
Definition identify_threats (competitors : list CompetitorProfile) : list string :=
  (["Potential price war"; "New disruptive entrants"]
   ++ if existsb (fun c => PrimFloat.ltb 25 (cp_market_share c)) competitors
      then [dominant_threat] else [])%list.

(** [CompetitorAnalyzerService._get_fallback_competitors], by name. *)
Definition fallback_competitors (category : string) : list string :=
  ["Leading " ++ category ++ " Brand"; category ++ " Market Challenger"; "Emerging " ++ category ++ " Player"].

(** The web as the analyzer sees it.  [cw_search_names q] is the list of
    names [_search_competitors] has gathered for the query [q] when its
    [try] block ends (normally or by an exception);
    [cw_snippets q] the stripped texts of the [.result__snippet] elements
    of a DuckDuckGo search, [None] when the request or the parse raised;
    [cw_first_percentage q] is [float] of the first percentage in the page
    of [q], [None] when it has none or the request raised; [cw_round x n]
    is Python's [round(x, n)]; [cw_now_iso] is [datetime.now().isoformat()]. *)
Record CompetitorWeb : Type := {
  cw_search_names : string -> list string;
  cw_snippets : string -> option (list string);
  cw_first_percentage : string -> option float;
  cw_round : float -> Z -> float;
  cw_now_iso : string
}.

Section CompetitorAnalyzer.

Variable web : CompetitorWeb.

(** [CompetitorAnalyzerService._search_competitors], by name. *)
Definition search_competitors (category : string) : list string :=
  let competitors := cw_search_names web ("top companies " ++ category ++ " market share") in
  match competitors with
  | [] => fallback_competitors category
  | _ => firstn 5 competitors
  end.

(** [text[:100]] for the snippets kept, at most three, none empty. *)
Definition extracted_snippets (texts : list string) : list string :=
  map (fun t => String.concat "" (firstn 100 (utf8_chars t)))
      (filter (fun t => negb (String.eqb t "")) (firstn 3 texts)).

(** [CompetitorAnalyzerService._scrape_competitor_info]: the strengths and
    the weaknesses; the name is [company_name]. *)
Definition scrape_competitor_info (company_name category : string) : list string * list string :=
  let one (query : string) (default : string) :=
    match cw_snippets web query with
    | None => []
    | Some texts => match extracted_snippets texts with [] => [default] | l => l end
    end in
  (one (company_name ++ " " ++ category ++ " strengths advantages") "Established market presence",
   one (company_name ++ " " ++ category ++ " weaknesses problems reviews") "Limited information available").

(** [CompetitorAnalyzerService._estimate_market_share] *)
Definition estimate_market_share (company_name category : string) : float :=
  match cw_first_percentage web (company_name ++ " " ++ category ++ " market share percentage") with
  | Some p => py_min_float p 50
  | None => 10%float
  end.

(** The [CompetitorProfile(...)] of [analyze_async]; pydantic checks
    [0 <= market_share <= 100]. *)
Definition build_profile (category name : string) : py_result CompetitorProfile :=
  let (strengths, weaknesses) := scrape_competitor_info name category in
  let market_share := cw_round web (estimate_market_share name category) 1 in
  if PrimFloat.leb 0 market_share && PrimFloat.leb market_share 100 then
    Ok (mk_profile name market_share "Market-based" 1 (firstn 4 strengths) (firstn 3 weaknesses)
                   "General market" 7)
  else Raise (PyException "ValidationError" "market_share: Input should be between 0 and 100").

(** [CompetitorAnalyzerService.analyze_async] *)
Definition analyze_async (category : string) : py_result CompetitorAnalysisResult :=
  let raw_competitors := search_competitors category in
  let* competitors := py_map_m (build_profile category) (firstn 5 raw_competitors) in
  Ok (mk_analysis category (cw_now_iso web) competitors
        (assess_market_concentration competitors)
        (py_sum_floats (map cp_market_share competitors))
        (identify_opportunities competitors)
        (identify_threats competitors)).

End CompetitorAnalyzer.

(** A web where the search finds two companies, every snippet search
    returns one text, the market-share pages give 30% and rounding to one
    decimal leaves these values unchanged. *)
Definition demo_web : CompetitorWeb := {|
  cw_search_names := fun _ => ["Sony"; "Bose"];
  cw_snippets := fun _ => Some ["Strong brand recognition"];
  cw_first_percentage := fun _ => Some 30%float;
  cw_round := fun x _ => x;
  cw_now_iso := "2026-10-16T09:00:00"
|}.

(** The same web where the search finds no company. *)
Definition empty_search_web : CompetitorWeb := {|
  cw_search_names := fun _ => [];
  cw_snippets := cw_snippets demo_web;
  cw_first_percentage := cw_first_percentage demo_web;
  cw_round := cw_round demo_web;
  cw_now_iso := cw_now_iso demo_web
|}.

(** The two characters backslash and [n] (the Python literal ['\\n']). *)
Definition escaped_newline : string := String "\"%char (String "n"%char EmptyString).

(** The first character of a string. *)
Definition head_char (s : string) : option ascii :=
  match s with
  | String c _ => Some c
  | EmptyString => None
  end.

(** A runtime whose [json.loads] knows a few documents: an empty object,
    an empty array and an array of one number; any other text is not
    valid JSON.  Everything else is as in [demo_env]. *)
Definition json_env : PyEnv := {|
  json_loads := fun s =>
    if String.eqb s "{}" then JsonOk (PDict [])
    else if String.eqb s "[]" then JsonOk (PList [])
    else if String.eqb s "[1]" then JsonOk (PList [PInt 1])
    else JsonDecodeError "Expecting value: line 1 column 1 (char 0)";
  json_dumps := json_dumps demo_env;
  float_repr := float_repr demo_env;
  float_format_f := float_format_f demo_env;
  big_int_to_float := big_int_to_float demo_env;
  str_repr := str_repr demo_env;
  now_mdY_HM := now_mdY_HM demo_env;
  elapsed_ms := elapsed_ms demo_env;
  product_scraper_scrape := product_scraper_scrape demo_env;
  competitor_analyzer_analyze := competitor_analyzer_analyze demo_env;
  sentiment_analyzer_analyze := sentiment_analyzer_analyze demo_env;
  tool_error_policy := tool_error_policy demo_env
|}.




(** The last line of the report. *)
Definition report_footer : string := "*Report automatically generated by Market Analysis Agent*".

(* ================================================================== *)
(** * Properties *)

Lemma last_message_app (l : list message) (m : message) :
  last_message (l ++ [m])%list = Some m.
Proof. unfold last_message. rewrite rev_app_distr. reflexivity. Qed.

Lemma last_message_nonempty (l : list message) :
  l <> [] -> exists m, last_message l = Some m.
Proof.
  intros H. unfold last_message. destruct (rev l) eqn:E.
  - apply (f_equal (@rev message)) in E. rewrite rev_involutive in E. simpl in E. contradiction.
  - eauto.
Qed.

Lemma agent_node_last (llm : chat_model) (st st' : AgentState) :
  agent_node llm st = Ok st' ->
  exists c tcs, messages st' = (messages st ++ [AIMessage c tcs])%list
                /\ llm (SystemMessage system_prompt :: messages st) = Ok (c, tcs).
Proof.
  unfold agent_node, py_bind. destruct (llm _) as [[c tcs]|e]; intros H; inversion H; subst.
  exists c, tcs. split; reflexivity.
Qed.

(** C1: [_should_continue] on a non-empty transcript answers "continue"
    exactly when the last message carries a non-empty list of tool calls
    and "end" otherwise; and a run of the graph that finishes normally
    (reaches END) always stops on a model message with no tool calls. *)
Theorem C1_should_continue_decision :
  (forall st : AgentState, messages st <> [] ->
     (should_continue st = Ok Continue <->
        exists c tc tcs, last_message (messages st) = Some (AIMessage c (tc :: tcs)))
     /\ (should_continue st = Ok End_ <->
        ~ exists c tc tcs, last_message (messages st) = Some (AIMessage c (tc :: tcs))))
  /\ (forall env llm limit fuel nd st tr st',
        pregel env llm limit fuel nd st = (tr, Ok st') ->
        exists c, last_message (messages st') = Some (AIMessage c [])).
Proof.
  split.
  - intros st Hne. destruct (last_message_nonempty _ Hne) as [m Hm].
    unfold should_continue. rewrite Hm.
    destruct m as [c|c|c [|tc tcs]|c n i s]; split; split; intros H;
      try discriminate; try (destruct H as (?&?&?&H); discriminate);
      try (intros (?&?&?&H'); discriminate); eauto.
    + exfalso. apply H. eauto.
  - intros env llm limit fuel. induction fuel as [|fuel IH]; intros nd st tr st' H.
    + discriminate.
    + destruct nd; simpl in H.
      * destruct (agent_node llm st) as [s1|e] eqn:Ea; [|discriminate].
        destruct (agent_node_last _ _ _ Ea) as (c & tcs & Hm & _).
        destruct (should_continue s1) as [[|]|e] eqn:Es.
        -- destruct (pregel env llm limit fuel Tools s1) as [tr' r] eqn:Ep.
           inversion H; subst. eapply IH; eauto.
        -- inversion H; subst. unfold should_continue in Es. rewrite Hm, last_message_app in Es.
           rewrite Hm, last_message_app. destruct tcs; [eauto | discriminate].
        -- discriminate.
      * destruct (tools_node env st) as [s1|e]; [|discriminate].
        destruct (pregel env llm limit fuel Agent s1) as [tr' r] eqn:Ep.
        inversion H; subst. eapply IH; eauto.
Qed.

Lemma C1_should_continue_decision_witness :
  messages (mk_state [AIMessage "" [call "generate_report" [] "1"]] "x") <> []
  /\ (should_continue (mk_state [AIMessage "" [call "generate_report" [] "1"]] "x") = Ok Continue <->
      exists c tc tcs, last_message (messages (mk_state [AIMessage "" [call "generate_report" [] "1"]] "x"))
                       = Some (AIMessage c (tc :: tcs))).
Proof.
  split; [discriminate|].
  apply (proj1 (proj1 C1_should_continue_decision (mk_state [AIMessage "" [call "generate_report" [] "1"]] "x")
                 ltac:(discriminate))).
Defined.

Lemma py_map_m_total {A B : Type} (f : A -> py_result B) (l : list A) :
  (forall x, exists y, f x = Ok y) -> exists ys, py_map_m f l = Ok ys.
Proof.
  intros Hf. induction l as [|x l IH]; simpl.
  - eauto.
  - destruct (Hf x) as [y Hy]. destruct IH as [ys Hys].
    unfold py_bind. rewrite Hy, Hys. eauto.
Qed.

Section Bounds.

Variable env : PyEnv.
Variable llm : chat_model.
Variable limit : nat.

Lemma pregel_steps_bounded (fuel : nat) :
  forall nd st,
    length (fst (pregel env llm limit fuel nd st)) <= fuel
    /\ 2 * model_invocations (fst (pregel env llm limit fuel nd st))
       <= fuel + match nd with Agent => 1 | Tools => 0 end.
Proof.
  induction fuel as [|fuel IH]; intros nd st.
  - simpl. unfold model_invocations. simpl. lia.
  - destruct nd; simpl.
    + destruct (agent_node llm st) as [s1|e].
      * destruct (should_continue s1) as [[|]|e].
        -- destruct (pregel env llm limit fuel Tools s1) as [tr r] eqn:Ep.
           destruct (IH Tools s1) as [H1 H2]. rewrite Ep in H1, H2. simpl in *.
           unfold model_invocations in *. simpl. lia.
        -- unfold model_invocations. simpl. lia.
        -- unfold model_invocations. simpl. lia.
      * unfold model_invocations. simpl. lia.
    + destruct (tools_node env st) as [s1|e].
      * destruct (pregel env llm limit fuel Agent s1) as [tr r] eqn:Ep.
        destruct (IH Agent s1) as [H1 H2]. rewrite Ep in H1, H2. simpl in *.
        unfold model_invocations in *. simpl. lia.
      * unfold model_invocations. simpl. lia.
Qed.

Hypothesis always_tool : forall msgs, exists c tc tcs, llm msgs = Ok (c, tc :: tcs).
Hypothesis tools_answer : forall tc, exists m, tool_node_run_one env tc = Ok m.

Lemma pregel_always_tool (fuel : nat) :
  (forall st, snd (pregel env llm limit fuel Agent st) = Raise (graph_recursion_error limit))
  /\ (forall st c tcs, last_message (messages st) = Some (AIMessage c tcs) ->
        snd (pregel env llm limit fuel Tools st) = Raise (graph_recursion_error limit)).
Proof.
  induction fuel as [|fuel [IHa IHt]]; split; intros; try reflexivity.
  - simpl. destruct (always_tool (SystemMessage system_prompt :: messages st)) as (c & tc & tcs & Hl).
    unfold agent_node. rewrite Hl. simpl.
    unfold should_continue at 1. simpl. rewrite last_message_app.
    destruct (pregel env llm limit fuel Tools _) as [tr r] eqn:Ep. simpl.
    specialize (IHt (add_messages st [AIMessage c (tc :: tcs)]) c (tc :: tcs)).
    rewrite Ep in IHt. apply IHt. simpl. apply last_message_app.
  - simpl. unfold tools_node at 1. rewrite H.
    destruct (py_map_m_total (tool_node_run_one env) tcs tools_answer) as [outs Ho].
    rewrite Ho. simpl.
    destruct (pregel env llm limit fuel Agent _) as [tr r] eqn:Ep. simpl.
    specialize (IHa (add_messages st outs)). rewrite Ep in IHa. exact IHa.
Qed.

End Bounds.

Lemma run_trace (env : PyEnv) (llm : chat_model) (limit : nat) (name : string) :
  fst (run env llm limit name) = fst (graph_invoke env llm limit (initial_state name)).
Proof. unfold run. destruct (graph_invoke _ _ _ _). reflexivity. Qed.

(** C2: every run executes at most [limit] super-steps of the graph and
    at most [limit] model invocations (at most (limit+1)/2 of them), where
    [limit] is the run's recursion limit (LangGraph's default 25, as
    [run] sets none); with a model that always requests a tool (whose
    calls the tool node answers), the run ends with the forced
    termination error [GraphRecursionError] instead of looping. *)
Theorem C2_run_bounded_by_recursion_limit :
  forall env llm limit name,
    length (fst (run env llm limit name)) <= limit
    /\ model_invocations (fst (run env llm limit name)) <= limit
    /\ 2 * model_invocations (fst (run env llm limit name)) <= limit + 1
    /\ ((forall msgs, exists c tc tcs, llm msgs = Ok (c, tc :: tcs)) ->
        (forall tc, exists m, tool_node_run_one env tc = Ok m) ->
        snd (run env llm limit name) = Raise (graph_recursion_error limit)).
Proof.
  intros env llm limit name. rewrite run_trace.
  destruct (pregel_steps_bounded env llm limit limit Agent (initial_state name)) as [H1 H2].
  unfold graph_invoke. split; [exact H1|]. split; [lia|]. split; [exact H2|].
  intros Hl Ht. unfold run, graph_invoke.
  destruct (pregel_always_tool env llm limit Hl Ht limit) as [Ha _].
  specialize (Ha (initial_state name)).
  destruct (pregel env llm limit limit Agent (initial_state name)) as [tr r].
  simpl in *. rewrite Ha. reflexivity.
Qed.

Lemma C2_run_bounded_by_recursion_limit_witness :
  snd (run demo_env unknown_tool_llm 3 "wireless earbuds") = Raise (graph_recursion_error 3).
Proof.
  apply (proj2 (proj2 (proj2 (C2_run_bounded_by_recursion_limit demo_env unknown_tool_llm 3 "wireless earbuds")))).
  - intros msgs. do 3 eexists. reflexivity.
  - intros tc. unfold tool_node_run_one.
    destruct (assoc _ _) as [t|]; [destruct (snd (t _)); eexists; reflexivity | eexists; reflexivity].
Defined.

Lemma contains_marker_nonempty (s : string) :
  contains report_marker s = true -> s <> "".
Proof. intros H E. subst. discriminate H. Qed.

Lemma scan_for_marker_find (l : list message) :
  scan_for_marker l = match find marker_candidate l with Some m => content_of m | None => "" end.
Proof.
  induction l as [|m l IH]; simpl; [reflexivity|].
  unfold marker_candidate. destruct (calls_generate_report_first m); simpl; [exact IH|].
  destruct (contains report_marker (content_of m)); simpl; [reflexivity|].
  rewrite andb_false_r. exact IH.
Qed.

Lemma scan_for_report_tool_find (l : list message) :
  scan_for_report_tool l = match find is_report_tool_result l with Some m => content_of m | None => "" end.
Proof.
  induction l as [|m l IH]; simpl; [reflexivity|].
  unfold is_report_tool_result. destruct (name_attr m) as [n|]; [|exact IH].
  destruct (String.eqb n "generate_report"); [reflexivity | exact IH].
Qed.

Lemma find_app {A : Type} (f : A -> bool) (l1 l2 : list A) :
  find f (l1 ++ l2) = match find f l1 with Some x => Some x | None => find f l2 end.
Proof. induction l1 as [|x l1 IH]; simpl; [reflexivity|]. destruct (f x); [reflexivity | exact IH]. Qed.

Lemma find_none_forallb {A : Type} (f : A -> bool) (l : list A) :
  forallb (fun x => negb (f x)) l = true -> find f l = None.
Proof.
  induction l as [|x l IH]; simpl; [reflexivity|].
  intros H. apply andb_true_iff in H as [H1 H2]. destruct (f x); [discriminate | auto].
Qed.

Lemma forallb_rev {A : Type} (f : A -> bool) (l : list A) :
  forallb f (rev l) = forallb f l.
Proof.
  induction l as [|x l IH]; simpl; [reflexivity|].
  rewrite forallb_app, IH. simpl. rewrite andb_true_r, andb_comm. reflexivity.
Qed.

Lemma extract_report_chain (msgs : list message) :
  extract_report msgs = amended_extract msgs.
Proof.
  unfold extract_report, amended_extract.
  rewrite scan_for_marker_find, scan_for_report_tool_find.
  destruct (find marker_candidate (rev msgs)) as [m|] eqn:Ef.
  - apply find_some in Ef as [_ Hm]. unfold marker_candidate in Hm.
    apply andb_true_iff in Hm as [_ Hm].
    destruct (String.eqb (content_of m) "") eqn:E.
    + apply String.eqb_eq in E. exfalso. exact (contains_marker_nonempty _ Hm E).
    + rewrite E. reflexivity.
  - simpl. destruct (find is_report_tool_result (rev msgs)) as [m|]; simpl.
    + destruct (String.eqb (content_of m) "") eqn:E; [|reflexivity].
      unfold last_content. destruct (last_message msgs); [reflexivity|].
      apply String.eqb_eq in E. exact E.
    + reflexivity.
Qed.

(** C3 (as stated, refuted): on a transcript where the report tool's
    result is followed by a model message that quotes the report header,
    [run] returns that later model message, not the tool's payload that
    the spec's order selects. *)
Lemma C3_later_marker_message_wins :
  extract_report quoting_transcript = "Here is the " ++ report_marker ++ " you asked for."
  /\ spec_extract quoting_transcript = report_payload
  /\ extract_report quoting_transcript <> spec_extract quoting_transcript.
Proof.
  split; [vm_compute; reflexivity|]. split; [vm_compute; reflexivity|].
  vm_compute. discriminate.
Qed.

(** C3 (amended): the report [run] returns is chosen by [amended_extract]:
    (1) the latest message of any role, except a model message whose first
    tool call is generate_report, whose content contains the report header
    marker; (2) else the latest message named generate_report, if its
    content is not empty; (3) else the content of the last message.  In
    particular the report tool's result is returned whenever no later
    message contains the marker, whatever later model messages say. *)
Theorem C3_extractor_order :
  (forall msgs, extract_report msgs = amended_extract msgs)
  /\ (forall pre post c id status,
        contains report_marker c = true ->
        forallb (fun m => negb (marker_candidate m)) post = true ->
        extract_report (pre ++ ToolMessage c "generate_report" id status :: post)%list = c).
Proof.
  split; [exact extract_report_chain|].
  intros pre post c id status Hc Hpost.
  rewrite extract_report_chain. unfold amended_extract.
  rewrite rev_app_distr. simpl. rewrite <- app_assoc. simpl.
  rewrite find_app, find_none_forallb by (rewrite forallb_rev; exact Hpost).
  simpl. unfold marker_candidate at 1. simpl. rewrite Hc. reflexivity.
Qed.

Lemma C3_extractor_order_witness :
  contains report_marker report_payload = true
  /\ forallb (fun m => negb (marker_candidate m)) [AIMessage "Done." []] = true
  /\ extract_report ([HumanMessage "Analyze the market for the product: x"]
                      ++ ToolMessage report_payload "generate_report" "4" "success"
                      :: [AIMessage "Done." []])%list = report_payload.
Proof.
  split; [vm_compute; reflexivity|]. split; [vm_compute; reflexivity|].
  apply (proj2 C3_extractor_order); vm_compute; reflexivity.
Defined.

Lemma tool_node_run_one_tool_msg (env : PyEnv) (tc : tool_call) (m : message) :
  tool_node_run_one env tc = Ok m -> is_tool_msg m = true.
Proof.
  unfold tool_node_run_one. destruct (assoc _ _) as [t|].
  - destruct (snd (t _)) as [v|e].
    + intros H. inversion H. reflexivity.
    + destruct (tool_error_policy env e); intros H; inversion H. reflexivity.
  - intros H. inversion H. reflexivity.
Qed.

Lemma py_map_m_forall {A B : Type} (f : A -> py_result B) (P : B -> Prop) (l : list A) (ys : list B) :
  (forall x y, f x = Ok y -> P y) -> py_map_m f l = Ok ys -> Forall P ys.
Proof.
  intros Hf. revert ys. induction l as [|x l IH]; simpl; intros ys H.
  - inversion H. constructor.
  - unfold py_bind in H. destruct (f x) as [y|e] eqn:Ey; [|discriminate].
    destruct (py_map_m f l) as [ys'|e] eqn:El; [|discriminate].
    inversion H; subst. constructor; eauto.
Qed.

Lemma count_filter_app (f : message -> bool) (l1 l2 : list message) :
  length (filter f (l1 ++ l2)) = length (filter f l1) + length (filter f l2).
Proof. rewrite filter_app, length_app. reflexivity. Qed.

Lemma tools_only_count (l : list message) :
  Forall (fun m => is_tool_msg m = true) l -> count_ai l = 0 /\ count_tool l = length l.
Proof.
  induction 1 as [|m l Hm _ [IH1 IH2]]; [split; reflexivity|].
  unfold count_ai, count_tool in *. destruct m; try discriminate. simpl. lia.
Qed.

(** Every run of the graph only appends model messages (one per model
    turn) and tool results to the transcript. *)
Lemma pregel_appends (env : PyEnv) (llm : chat_model) (limit fuel : nat) :
  forall nd st tr st',
    pregel env llm limit fuel nd st = (tr, Ok st') ->
    exists added, messages st' = (messages st ++ added)%list
      /\ count_ai added = model_invocations tr
      /\ length added = count_ai added + count_tool added.
Proof.
  induction fuel as [|fuel IH]; intros nd st tr st' H; [discriminate|].
  destruct nd; simpl in H.
  - destruct (agent_node llm st) as [s1|e] eqn:Ea; [|discriminate].
    destruct (agent_node_last _ _ _ Ea) as (c & tcs & Hm & _).
    destruct (should_continue s1) as [[|]|e]; [| |discriminate].
    + destruct (pregel env llm limit fuel Tools s1) as [tr' r] eqn:Ep.
      inversion H; subst. destruct (IH _ _ _ _ Ep) as (added & H1 & H2 & H3).
      exists (AIMessage c tcs :: added). rewrite H1, Hm, <- app_assoc. split; [reflexivity|].
      unfold count_ai, count_tool, model_invocations in *. simpl. lia.
    + inversion H; subst. exists [AIMessage c tcs]. split; [exact Hm|].
      unfold model_invocations. split; reflexivity.
  - unfold tools_node in H.
    destruct (last_message (messages st)) as [[| |c calls|]|]; try discriminate.
    destruct (py_map_m (tool_node_run_one env) calls) as [outs|e] eqn:Eo; [|discriminate].
    simpl in H. destruct (pregel env llm limit fuel Agent (add_messages st outs)) as [tr' r] eqn:Ep.
    inversion H; subst. destruct (IH _ _ _ _ Ep) as (added & H1 & H2 & H3).
    pose proof (py_map_m_forall _ _ _ _ (tool_node_run_one_tool_msg env) Eo) as Ht.
    destruct (tools_only_count _ Ht) as [Ha Hb].
    exists (outs ++ added)%list. simpl in H1. rewrite H1, <- app_assoc. split; [reflexivity|].
    unfold count_ai, count_tool, model_invocations in *.
    rewrite !count_filter_app, length_app. simpl. lia.
Qed.

(** C4 (as stated, refuted): on the happy path (tool A, B, C, the final
    tool, then an answer without tool calls) [steps_executed] is 10, the
    length of the transcript, while the model was invoked 5 times. *)
Lemma C4_happy_path_steps_executed :
  match snd (run demo_env happy_llm DEFAULT_RECURSION_LIMIT "wireless earbuds") with
  | Ok out => steps_executed out
  | Raise _ => 0
  end = 10
  /\ model_invocations (fst (run demo_env happy_llm DEFAULT_RECURSION_LIMIT "wireless earbuds")) = 5.
Proof. split; vm_compute; reflexivity. Qed.

(** C4 (amended): [steps_executed] is the number of messages of the final
    transcript: the seed human message, one model message per model turn
    and one tool result per answered tool call. *)
Theorem C4_steps_executed_counts_messages :
  forall env llm limit name tr st,
    graph_invoke env llm limit (initial_state name) = (tr, Ok st) ->
    exists out, snd (run env llm limit name) = Ok out
      /\ steps_executed out = length (messages st)
      /\ count_ai (messages st) = model_invocations tr
      /\ steps_executed out = 1 + model_invocations tr + count_tool (messages st).
Proof.
  intros env llm limit name tr st H.
  destruct (pregel_appends env llm limit limit Agent _ _ _ H) as (added & H1 & H2 & H3).
  unfold run. rewrite H. simpl. eexists. split; [reflexivity|]. simpl.
  split; [reflexivity|].
  rewrite H1. simpl. unfold count_ai, count_tool in *. simpl. lia.
Qed.

Lemma C4_steps_executed_counts_messages_witness :
  graph_invoke demo_env happy_llm DEFAULT_RECURSION_LIMIT (initial_state "wireless earbuds")
    = (happy_trace, Ok happy_final)
  /\ exists out, snd (run demo_env happy_llm DEFAULT_RECURSION_LIMIT "wireless earbuds") = Ok out
       /\ steps_executed out = length (messages happy_final)
       /\ count_ai (messages happy_final) = model_invocations happy_trace
       /\ steps_executed out = 1 + model_invocations happy_trace + count_tool (messages happy_final).
Proof.
  split; [vm_compute; reflexivity|].
  apply C4_steps_executed_counts_messages. vm_compute. reflexivity.
Defined.

(** C5: a registered tool is its body under [@tool] and
    [tool_error_handler(name)]; when the body raises an exception (an
    instance of [Exception]) on validated arguments, the wrapper logs
    ["<name> failed: <message>"] at error level on logger [tools.<name>]
    and raises a [ToolError] carrying the tool name, the original message
    and the original exception, never the raw exception. *)
Theorem C5_tool_error_handler_wraps :
  (forall env tool_name params body kwargs args e,
     validate_str_args params kwargs = Ok args ->
     body args = Raise e ->
     is_Exception e = true ->
     snd (as_tool env tool_name params body kwargs) = Raise (ToolError tool_name (exc_str e) (Some e))
     /\ In (LogError ("tools." ++ tool_name) (tool_name ++ " failed: " ++ exc_str e))
           (fst (as_tool env tool_name params body kwargs))
     /\ exc_str (ToolError tool_name (exc_str e) (Some e)) = "[" ++ tool_name ++ "] " ++ exc_str e)
  /\ (forall env, Forall (fun nt => exists params body, snd nt = as_tool env (fst nt) params body)
                         (tools env)).
Proof.
  split.
  - intros env tool_name params body kwargs args e Hv Hb He.
    unfold as_tool. rewrite Hv. unfold tool_error_handler. rewrite Hb, He. simpl.
    split; [reflexivity|]. split; [right; left; reflexivity | reflexivity].
  - intros env. unfold tools.
    repeat apply Forall_cons; try apply Forall_nil; simpl; do 2 eexists; reflexivity.
Qed.

Lemma C5_tool_error_handler_wraps_witness :
  snd (as_tool failing_scraper_env "scrape_product_data" ["product_name"]
         (scrape_product_data_body failing_scraper_env) [("product_name", PStr "earbuds")])
  = Raise (ToolError "scrape_product_data" "connection refused"
             (Some (PyException "ConnectionError" "connection refused"))).
Proof.
  apply (proj1 C5_tool_error_handler_wraps failing_scraper_env "scrape_product_data" ["product_name"]
           (scrape_product_data_body failing_scraper_env) [("product_name", PStr "earbuds")]
           [("product_name", PStr "earbuds")] (PyException "ConnectionError" "connection refused"));
    reflexivity.
Defined.

Lemma prefix_app_self (n r : string) : String.prefix n (n ++ r) = true.
Proof.
  induction n as [|a n IH]; [destruct r; reflexivity|].
  simpl. destruct (ascii_dec a a) as [_|C]; [exact IH | congruence].
Qed.

Lemma contains_middle (p n r : string) : contains n (p ++ n ++ r) = true.
Proof.
  induction p as [|a p IH]; simpl.
  - pose proof (prefix_app_self n r) as Hp.
    destruct (n ++ r) as [|b h]; unfold contains; rewrite Hp; reflexivity.
  - match goal with |- (if ?b then _ else _) = _ => destruct b end; [reflexivity | exact IH].
Qed.

Lemma assoc_not_registered {A : Type} (name : string) (l : list (string * A)) :
  existsb (String.eqb name) (map fst l) = false -> assoc name l = None.
Proof.
  induction l as [|[k v] l IH]; simpl; [reflexivity|].
  intros H. apply orb_false_iff in H as [H1 H2]. rewrite H1. auto.
Qed.

(** C7: a tool call whose name is not registered is answered, without
    running anything, by a tool result with status "error" whose text
    names the requested tool; a model turn made of such calls appends
    one such result per call and the graph goes on to another model turn. *)
Theorem C7_unknown_tool_recorded :
  (forall env tc,
     existsb (String.eqb (tc_name tc)) (tool_names env) = false ->
     tool_node_run_one env tc
       = Ok (ToolMessage (invalid_tool_name_error env (tc_name tc)) (tc_name tc) (tc_id tc) "error")
     /\ contains (tc_name tc) (invalid_tool_name_error env (tc_name tc)) = true)
  /\ (forall env llm limit fuel st c calls,
        last_message (messages st) = Some (AIMessage c calls) ->
        forallb (fun tc => negb (existsb (String.eqb (tc_name tc)) (tool_names env))) calls = true ->
        tools_node env st
          = Ok (add_messages st (map (fun tc => ToolMessage (invalid_tool_name_error env (tc_name tc))
                                                           (tc_name tc) (tc_id tc) "error") calls))
        /\ firstn 2 (fst (pregel env llm limit (S (S fuel)) Tools st)) = [Tools; Agent]).
Proof.
  assert (Hone : forall env tc,
     existsb (String.eqb (tc_name tc)) (tool_names env) = false ->
     tool_node_run_one env tc
       = Ok (ToolMessage (invalid_tool_name_error env (tc_name tc)) (tc_name tc) (tc_id tc) "error")).
  { intros env tc H. unfold tool_node_run_one. rewrite (assoc_not_registered _ _ H). reflexivity. }
  split.
  - intros env tc H. split; [exact (Hone env tc H)|].
    unfold invalid_tool_name_error. apply (contains_middle "Error: ").
  - intros env llm limit fuel st c calls Hlast Hall.
    assert (Hmap : py_map_m (tool_node_run_one env) calls
                   = Ok (map (fun tc => ToolMessage (invalid_tool_name_error env (tc_name tc))
                                                    (tc_name tc) (tc_id tc) "error") calls)).
    { clear Hlast. induction calls as [|tc calls IH]; simpl in *; [reflexivity|].
      apply andb_true_iff in Hall as [H1 H2]. apply negb_true_iff in H1.
      unfold py_bind. rewrite (Hone env tc H1), (IH H2). reflexivity. }
    assert (Ht : tools_node env st
                 = Ok (add_messages st (map (fun tc => ToolMessage (invalid_tool_name_error env (tc_name tc))
                                                                  (tc_name tc) (tc_id tc) "error") calls))).
    { unfold tools_node. rewrite Hlast, Hmap. reflexivity. }
    split; [exact Ht|].
    simpl. rewrite Ht. simpl.
    destruct (agent_node llm _) as [s1|e]; [|reflexivity].
    destruct (should_continue s1) as [[|]|e]; [|reflexivity|reflexivity].
    destruct (pregel env llm limit fuel Tools s1). reflexivity.
Qed.

Lemma C7_unknown_tool_recorded_witness :
  tools_node demo_env (mk_state [AIMessage "" [call "nonexistent_tool" [] "x"]] "x")
  = Ok (add_messages (mk_state [AIMessage "" [call "nonexistent_tool" [] "x"]] "x")
          [ToolMessage "Error: nonexistent_tool is not a valid tool, try one of [scrape_product_data, analyze_competitors, analyze_sentiment, generate_report]."
             "nonexistent_tool" "x" "error"]).
Proof.
  apply (proj2 C7_unknown_tool_recorded demo_env unknown_tool_llm 25 0
           (mk_state [AIMessage "" [call "nonexistent_tool" [] "x"]] "x") "" [call "nonexistent_tool" [] "x"]);
    vm_compute; reflexivity.
Defined.

Lemma as_tool_ok (env : PyEnv) (n : string) (ps : list string)
    (body : list (string * PyVal) -> py_result PyVal) (kwargs : list (string * PyVal)) (v : PyVal) :
  snd (as_tool env n ps body kwargs) = Ok v -> exists args, body args = Ok v.
Proof.
  unfold as_tool. destruct (validate_str_args ps kwargs) as [args|e]; [|discriminate].
  unfold tool_error_handler. destruct (body args) as [r|e] eqn:Eb.
  - simpl. intros H. inversion H; subst. eauto.
  - destruct (is_Exception e); discriminate.
Qed.

(** C8 (amended): a successful call of one of the three data tools returns
    a mapping (the service record's [model_dump()]), while a successful
    call of [generate_report] returns a string, the Markdown report. *)
Theorem C8_tool_results_shape :
  forall env kwargs v,
    (snd (scrape_product_data env kwargs) = Ok v -> exists fs, v = PDict fs)
    /\ (snd (analyze_competitors env kwargs) = Ok v -> exists fs, v = PDict fs)
    /\ (snd (analyze_sentiment env kwargs) = Ok v -> exists fs, v = PDict fs)
    /\ (snd (generate_report env kwargs) = Ok v -> exists s, v = PStr s).
Proof.
  intros env kwargs v. repeat split; intros H; apply as_tool_ok in H as [args H].
  - unfold scrape_product_data_body, py_bind in H.
    destruct (str_arg _ _); [|discriminate].
    destruct (product_scraper_scrape env _); [|discriminate]. inversion H. eauto.
  - unfold analyze_competitors_body, py_bind in H.
    destruct (str_arg _ _); [|discriminate].
    destruct (competitor_analyzer_analyze env _); [|discriminate]. inversion H. eauto.
  - unfold analyze_sentiment_body, py_bind in H.
    destruct (str_arg _ _); [|discriminate].
    destruct (sentiment_analyzer_analyze env _); [|discriminate]. inversion H. eauto.
  - unfold generate_report_body, py_bind in H.
    destruct (str_arg _ "product_data"); [|discriminate].
    destruct (str_arg _ "competitor_data"); [|discriminate].
    destruct (str_arg _ "sentiment_data"); [|discriminate].
    destruct (generate env _ _ _); [|discriminate]. inversion H. eauto.
Qed.

Lemma C8_tool_results_shape_witness :
  snd (generate_report demo_env (report_kwargs "p" "c" "s")) = Ok (PStr (empty_report demo_env))
  /\ exists s, PStr (empty_report demo_env) = PStr s.
Proof.
  split; [vm_compute; reflexivity|].
  apply (proj2 (proj2 (proj2 (C8_tool_results_shape demo_env (report_kwargs "p" "c" "s")
           (PStr (empty_report demo_env)))))).
  vm_compute. reflexivity.
Defined.

(** C8, as stated: [generate_report] succeeds with a bare string, not a
    mapping. *)
Lemma C8_generate_report_returns_str :
  snd (generate_report demo_env (report_kwargs "p" "c" "s")) = Ok (PStr (empty_report demo_env))
  /\ forall fs, snd (generate_report demo_env (report_kwargs "p" "c" "s")) <> Ok (PDict fs).
Proof.
  assert (H : snd (generate_report demo_env (report_kwargs "p" "c" "s")) = Ok (PStr (empty_report demo_env)))
    by (vm_compute; reflexivity).
  split; [exact H|]. intros fs. rewrite H. discriminate.
Qed.

Lemma ai_tool_le (l : list message) : count_ai l + count_tool l <= length l.
Proof.
  unfold count_ai, count_tool.
  induction l as [|m l IH]; [simpl; lia|].
  destruct m; simpl; lia.
Qed.

Lemma no_system_when_ai_tool (l : list message) :
  length l = count_ai l + count_tool l -> forall c, ~ In (SystemMessage c) l.
Proof.
  induction l as [|m l IH]; simpl; [tauto|].
  intros H c [E|I].
  - subst m. pose proof (ai_tool_le l). unfold count_ai, count_tool in *. simpl in H. lia.
  - apply (IH) with c; [|exact I].
    pose proof (ai_tool_le l). unfold count_ai, count_tool in *.
    destruct m; simpl in H; lia.
Qed.

(** C9 (amended): the transcript of [run] is seeded with exactly one
    human message naming the product and never holds a system message;
    the system instruction, which states the tool order and that
    generate_report must be called as the final step, is not stored in the
    transcript but put in front of it in every request to the model. *)
Theorem C9_initial_transcript :
  forall env llm limit name,
    messages (initial_state name) = [HumanMessage ("Analyze the market for the product: " ++ name)]
    /\ (forall tr st',
          graph_invoke env llm limit (initial_state name) = (tr, Ok st') ->
          (exists added, messages st' = HumanMessage ("Analyze the market for the product: " ++ name) :: added)
          /\ forall c, ~ In (SystemMessage c) (messages st'))
    /\ (forall llm' st,
          llm (SystemMessage system_prompt :: messages st) = llm' (SystemMessage system_prompt :: messages st) ->
          agent_node llm st = agent_node llm' st)
    /\ contains "1. scrape_product_data" system_prompt = true
    /\ contains "2. analyze_competitors" system_prompt = true
    /\ contains "3. analyze_sentiment" system_prompt = true
    /\ contains "4. generate_report" system_prompt = true
    /\ contains "You MUST call generate_report as the final step" system_prompt = true.
Proof.
  intros env llm limit name. split; [reflexivity|]. split; [|split].
  - intros tr st' H. unfold graph_invoke in H.
    destruct (pregel_appends env llm limit limit Agent _ _ _ H) as (added & H1 & H2 & H3).
    simpl in H1. split; [eauto|].
    intros c I. rewrite H1 in I. destruct I as [E|I]; [discriminate|].
    exact (no_system_when_ai_tool added H3 c I).
  - intros llm' st H. unfold agent_node. rewrite H. reflexivity.
  - vm_compute. repeat split.
Qed.

Lemma C9_initial_transcript_witness :
  graph_invoke demo_env happy_llm DEFAULT_RECURSION_LIMIT (initial_state "wireless earbuds")
    = (happy_trace, Ok happy_final)
  /\ forall c, ~ In (SystemMessage c) (messages happy_final).
Proof.
  assert (H : graph_invoke demo_env happy_llm DEFAULT_RECURSION_LIMIT (initial_state "wireless earbuds")
              = (happy_trace, Ok happy_final)) by (vm_compute; reflexivity).
  split; [exact H|].
  exact (proj2 (proj1 (proj2 (C9_initial_transcript demo_env happy_llm DEFAULT_RECURSION_LIMIT
                                "wireless earbuds")) happy_trace happy_final H)).
Defined.

(** C9, as stated: the transcript at the start of [run] holds no system
    message, only the human one. *)
Lemma C9_no_system_message_in_state :
  messages (initial_state "wireless earbuds")
    = [HumanMessage "Analyze the market for the product: wireless earbuds"]
  /\ forall c, ~ In (SystemMessage c) (messages (initial_state "wireless earbuds")).
Proof.
  split; [reflexivity|]. intros c [E|[]]. discriminate.
Qed.









(* ------------------------------------------------------------------ *)
(** ** Further properties of the code *)

Lemma pregel_success_shape (env : PyEnv) (llm : chat_model) (limit fuel : nat) :
  forall nd st tr st',
    pregel env llm limit fuel nd st = (tr, Ok st') ->
    (exists c, last_message (messages st') = Some (AIMessage c []))
    /\ exists k, tr = match nd with
                      | Agent => List.concat (repeat [Agent; Tools] k) ++ [Agent]
                      | Tools => Tools :: List.concat (repeat [Agent; Tools] k) ++ [Agent]
                      end%list.
Proof.
  induction fuel as [|fuel IH]; intros nd st tr st' H; [discriminate|].
  destruct nd; simpl in H.
  - destruct (agent_node llm st) as [s1|e] eqn:Ea; [|discriminate].
    destruct (agent_node_last _ _ _ Ea) as (c & tcs & Hm & _).
    destruct (should_continue s1) as [[|]|e] eqn:Es; [| |discriminate].
    + destruct (pregel env llm limit fuel Tools s1) as [tr' r] eqn:Ep.
      inversion H; subst. destruct (IH _ _ _ _ Ep) as [Hl [k Hk]].
      split; [exact Hl|]. exists (S k). rewrite Hk. reflexivity.
    + inversion H; subst. split; [|exists 0; reflexivity].
      unfold should_continue in Es. rewrite Hm, last_message_app in Es.
      destruct tcs; [|discriminate]. exists c. rewrite Hm. apply last_message_app.
  - destruct (tools_node env st) as [s1|e]; [|discriminate].
    destruct (pregel env llm limit fuel Agent s1) as [tr' r] eqn:Ep.
    inversion H; subst. destruct (IH _ _ _ _ Ep) as [Hl [k Hk]].
    split; [exact Hl|]. exists k. rewrite Hk. reflexivity.
Qed.

(** A run of the graph that returns a state ends on a model message with
    no tool calls, after model turns and tool turns that alternate: the
    trace is agent, tools, agent, ..., tools, agent. *)
Theorem graph_success_shape :
  forall env llm limit st tr st',
    graph_invoke env llm limit st = (tr, Ok st') ->
    (exists c, last_message (messages st') = Some (AIMessage c []))
    /\ exists k, tr = (List.concat (repeat [Agent; Tools] k) ++ [Agent])%list.
Proof.
  intros env llm limit st tr st' H. exact (pregel_success_shape env llm limit limit Agent st tr st' H).
Qed.

Lemma graph_success_shape_witness :
  graph_invoke demo_env happy_llm DEFAULT_RECURSION_LIMIT (initial_state "wireless earbuds")
    = (happy_trace, Ok happy_final)
  /\ (exists c, last_message (messages happy_final) = Some (AIMessage c []))
  /\ exists k, happy_trace = (List.concat (repeat [Agent; Tools] k) ++ [Agent])%list.
Proof.
  assert (H : graph_invoke demo_env happy_llm DEFAULT_RECURSION_LIMIT (initial_state "wireless earbuds")
              = (happy_trace, Ok happy_final)) by (vm_compute; reflexivity).
  split; [exact H|]. exact (graph_success_shape _ _ _ _ _ _ H).
Defined.

Lemma py_map_m_forall2 {A B : Type} (f : A -> py_result B) (R : A -> B -> Prop) (l : list A) (ys : list B) :
  (forall x y, f x = Ok y -> R x y) -> py_map_m f l = Ok ys -> Forall2 R l ys.
Proof.
  intros Hf. revert ys. induction l as [|x l IH]; simpl; intros ys H.
  - inversion H. constructor.
  - unfold py_bind in H. destruct (f x) as [y|e] eqn:Ey; [|discriminate].
    destruct (py_map_m f l) as [ys'|e] eqn:El; [|discriminate].
    inversion H; subst. constructor; eauto.
Qed.

(** The tool node answers the calls of the last model message in order:
    it appends one tool message per call, carrying that call's name and
    id, with status "success" or "error". *)
Theorem tools_node_answers_calls :
  forall env st st',
    tools_node env st = Ok st' ->
    exists c calls outs,
      last_message (messages st) = Some (AIMessage c calls)
      /\ messages st' = (messages st ++ outs)%list
      /\ Forall2 (fun tc m => exists content status,
                    m = ToolMessage content (tc_name tc) (tc_id tc) status
                    /\ (status = "success" \/ status = "error")) calls outs.
Proof.
  intros env st st' H. unfold tools_node in H.
  destruct (last_message (messages st)) as [[| |c calls|]|] eqn:El; try discriminate.
  unfold py_bind in H. destruct (py_map_m (tool_node_run_one env) calls) as [outs|e] eqn:Em; [|discriminate].
  inversion H; subst. exists c, calls, outs. split; [reflexivity|]. split; [reflexivity|].
  refine (py_map_m_forall2 _ _ _ _ _ Em). intros tc m Hm.
  unfold tool_node_run_one in Hm. destruct (assoc _ _) as [t|].
  - destruct (snd (t _)) as [v|e].
    + inversion Hm. do 2 eexists. split; [reflexivity | left; reflexivity].
    + destruct (tool_error_policy env e); inversion Hm.
      do 2 eexists. split; [reflexivity | right; reflexivity].
  - inversion Hm. do 2 eexists. split; [reflexivity | right; reflexivity].
Qed.

Lemma contains_escaped_newline_cons (a : ascii) (t : string) :
  contains escaped_newline (String a t)
  = ((Ascii.eqb a "\"%char && match head_char t with Some b => Ascii.eqb b "n"%char | None => false end)
     || contains escaped_newline t)%bool.
Proof.
  change (contains escaped_newline (String a t))
    with (if (match ascii_dec "\" a with
              | left _ => String.prefix (String "n" EmptyString) t
              | right _ => false end)
          then true else contains escaped_newline t).
  destruct (ascii_dec "\" a) as [Ha|Ha].
  - subst a. rewrite Ascii.eqb_refl. simpl andb.
    destruct t as [|b t']; [reflexivity|].
    change (String.prefix (String "n" EmptyString) (String b t'))
      with (match ascii_dec "n" b with left _ => String.prefix EmptyString t' | right _ => false end).
    cbn [head_char]. destruct (ascii_dec "n" b) as [Hb|Hb].
    + subst b. rewrite Ascii.eqb_refl. destruct t'; reflexivity.
    + destruct (Ascii.eqb_spec b "n"); [congruence|reflexivity].
  - destruct (Ascii.eqb_spec a "\"); [congruence|reflexivity].
Qed.

Lemma replace_escaped_newlines_head (s : string) :
  head_char (replace_escaped_newlines s) = Some "n"%char -> head_char s = Some "n"%char.
Proof.
  destruct s as [|c r]; simpl; [discriminate|].
  destruct (Ascii.eqb c "\") eqn:Ec; [|exact (fun H => H)].
  apply Ascii.eqb_eq in Ec; subst c.
  destruct r as [|d r']; simpl; [discriminate|].
  destruct (Ascii.eqb d "n"); discriminate.
Qed.

Lemma replace_escaped_newlines_clean (n : nat) :
  forall s, String.length s <= n -> contains escaped_newline (replace_escaped_newlines s) = false.
Proof.
  induction n as [|n IH]; intros s Hs.
  - destruct s; [reflexivity | simpl in Hs; lia].
  - destruct s as [|c r]; [reflexivity|]. simpl in Hs. simpl replace_escaped_newlines.
    destruct (Ascii.eqb c "\") eqn:Ec.
    + apply Ascii.eqb_eq in Ec; subst c. destruct r as [|d r'].
      * reflexivity.
      * simpl in Hs. destruct (Ascii.eqb d "n") eqn:Ed.
        -- rewrite contains_escaped_newline_cons, IH by lia. reflexivity.
        -- rewrite contains_escaped_newline_cons, (IH (String d r')) by (simpl; lia).
           destruct (head_char (replace_escaped_newlines (String d r'))) as [b|] eqn:Eh; [|reflexivity].
           destruct (Ascii.eqb_spec b "n") as [->|]; [|reflexivity].
           apply replace_escaped_newlines_head in Eh. simpl in Eh. inversion Eh; subst d. discriminate.
    + rewrite contains_escaped_newline_cons, IH by lia. rewrite Ec. reflexivity.
Qed.

Lemma replace_escaped_newlines_id (n : nat) :
  forall s, String.length s <= n -> contains escaped_newline s = false -> replace_escaped_newlines s = s.
Proof.
  induction n as [|n IH]; intros s Hs Hc.
  - destruct s; [reflexivity | simpl in Hs; lia].
  - destruct s as [|c r]; [reflexivity|]. simpl in Hs.
    rewrite contains_escaped_newline_cons in Hc. apply Bool.orb_false_iff in Hc as [H1 H2].
    simpl replace_escaped_newlines.
    destruct (Ascii.eqb c "\") eqn:Ec.
    + destruct r as [|d r']; [reflexivity|]. cbn [head_char] in H1.
      rewrite Bool.andb_true_l in H1. rewrite H1. rewrite IH by first [assumption | simpl in *; lia].
      apply Ascii.eqb_eq in Ec; subst c. reflexivity.
    + rewrite IH by first [assumption | simpl in *; lia]. reflexivity.
Qed.

(** [formatted_report] leaves no backslash-[n] pair in the report, so
    applying it twice gives the same text as once; a report is left
    unchanged exactly when it contains no backslash-[n] pair.  (Backslash
    and [n] are ASCII, so counting them in the UTF-8 bytes of the text is
    the same as counting them in its code points.) *)
Theorem formatted_report_no_escape :
  forall s,
    contains escaped_newline (formatted_report s) = false
    /\ formatted_report (formatted_report s) = formatted_report s
    /\ (formatted_report s = s <-> contains escaped_newline s = false).
Proof.
  intros s. unfold formatted_report.
  pose proof (replace_escaped_newlines_clean _ s (le_n _)) as Hc.
  split; [exact Hc|]. split.
  - apply (replace_escaped_newlines_id _ _ (le_n _) Hc).
  - split; intros H.
    + rewrite <- H. exact Hc.
    + exact (replace_escaped_newlines_id _ _ (le_n _) H).
Qed.

Lemma analyze_market_handled (env : PyEnv) (llm : chat_model) (u : unit) (name : string) :
  name <> "" ->
  snd (analyze_market env llm (Ok u) name)
  = match snd (run env llm DEFAULT_RECURSION_LIMIT name) with
    | Ok out => Ok (HttpOk (mk_response true name (report out) (steps_executed out) None))
    | Raise e => if is_Exception e then Ok (HttpError 500 (exc_str e)) else Raise e
    end.
Proof.
  intros Hn. unfold analyze_market.
  destruct (String.eqb_spec name "") as [|_]; [contradiction|].
  unfold run. destruct (graph_invoke _ _ _ _) as [tr [st|e]]; reflexivity.
Qed.

(** [POST /analyze] turns every [Exception] into an HTTP 500 whose detail
    is [str(e)]: one raised while building the graph (the graph is then
    not run) and one raised by the run; an exception outside [Exception]
    (a [BaseException] such as [KeyboardInterrupt]) propagates.  An empty
    product name is refused with a 422 before any of this. *)
Theorem analyze_market_errors :
  forall env llm name,
    analyze_market env llm (Ok tt) "" = ([], Ok (HttpUnprocessable "product_name"))
    /\ (name <> "" -> forall e, is_Exception e = true ->
          analyze_market env llm (Raise e) name = ([], Ok (HttpError 500 (exc_str e))))
    /\ (name <> "" -> forall u e, snd (run env llm DEFAULT_RECURSION_LIMIT name) = Raise e ->
          snd (analyze_market env llm (Ok u) name)
          = if is_Exception e then Ok (HttpError 500 (exc_str e)) else Raise e).
Proof.
  intros env llm name. split; [reflexivity|]. split.
  - intros Hn e He. unfold analyze_market.
    destruct (String.eqb_spec name "") as [|_]; [contradiction|]. simpl. rewrite He. reflexivity.
  - intros Hn u e Hr. rewrite (analyze_market_handled env llm u name Hn), Hr. reflexivity.
Qed.

Lemma analyze_market_errors_witness :
  analyze_market demo_env happy_llm (Raise (PyException "ValidationError" "anthropic_api_key: Field required"))
    "wireless earbuds"
  = ([], Ok (HttpError 500 "anthropic_api_key: Field required"))
  /\ snd (analyze_market failing_scraper_env (fun _ => Raise (PyException "APIConnectionError" "Connection error."))
            (Ok tt) "wireless earbuds")
     = Ok (HttpError 500 "Connection error.").
Proof.
  destruct (analyze_market_errors demo_env happy_llm "wireless earbuds") as [_ [H1 _]].
  destruct (analyze_market_errors failing_scraper_env
              (fun _ => Raise (PyException "APIConnectionError" "Connection error.")) "wireless earbuds")
    as [_ [_ H2]].
  split.
  - apply (H1 ltac:(discriminate) (PyException "ValidationError" "anthropic_api_key: Field required")).
    reflexivity.
  - apply (H2 ltac:(discriminate) tt (PyException "APIConnectionError" "Connection error.")).
    vm_compute. reflexivity.
Defined.

(** A model that requests a tool at every turn, whose calls all get an
    answer, makes [POST /analyze] fail with HTTP 500, whose detail is the
    text of the [GraphRecursionError] the run raises.  The proof holds for
    any value of LangGraph's default recursion limit. *)
Theorem analyze_market_looping_model :
  forall env llm u name,
    name <> "" ->
    (forall msgs, exists c tc tcs, llm msgs = Ok (c, tc :: tcs)) ->
    (forall tc, exists m, tool_node_run_one env tc = Ok m) ->
    exists msg,
      snd (run env llm DEFAULT_RECURSION_LIMIT name) = Raise (PyException "GraphRecursionError" msg)
      /\ snd (analyze_market env llm (Ok u) name) = Ok (HttpError 500 msg).
Proof.
  intros env llm u name Hn Hl Ht.
  destruct (pregel_always_tool env llm DEFAULT_RECURSION_LIMIT Hl Ht DEFAULT_RECURSION_LIMIT) as [Ha _].
  assert (Hr : snd (run env llm DEFAULT_RECURSION_LIMIT name)
               = Raise (graph_recursion_error DEFAULT_RECURSION_LIMIT)).
  { unfold run, graph_invoke. specialize (Ha (initial_state name)).
    destruct (pregel _ _ _ _ _ _) as [tr r]. simpl in Ha. subst r. reflexivity. }
  eexists. split; [exact Hr|].
  rewrite (analyze_market_handled env llm u name Hn), Hr. reflexivity.
Qed.

Lemma analyze_market_looping_model_witness :
  exists msg,
    snd (run demo_env unknown_tool_llm DEFAULT_RECURSION_LIMIT "wireless earbuds")
    = Raise (PyException "GraphRecursionError" msg)
    /\ snd (analyze_market demo_env unknown_tool_llm (Ok tt) "wireless earbuds") = Ok (HttpError 500 msg).
Proof.
  apply analyze_market_looping_model.
  - discriminate.
  - intros msgs. do 3 eexists. reflexivity.
  - intros tc. unfold tool_node_run_one. destruct (assoc _ _) as [t|];
      [destruct (snd (t _)); eexists; reflexivity | eexists; reflexivity].
Defined.

Lemma py_map_m_length {A B : Type} (f : A -> py_result B) (l : list A) (ys : list B) :
  py_map_m f l = Ok ys -> length ys = length l.
Proof.
  revert ys. induction l as [|x l IH]; simpl; intros ys H.
  - inversion H. reflexivity.
  - unfold py_bind in H. destruct (f x); [|discriminate].
    destruct (py_map_m f l) as [ys'|]; [|discriminate]. inversion H; subst. simpl. f_equal. auto.
Qed.

Lemma Forall2_map_eq {A B : Type} (g : B -> A) (xs : list A) (ys : list B) :
  Forall2 (fun x y => g y = x) xs ys -> map g ys = xs.
Proof. induction 1; simpl; congruence. Qed.

Lemma build_profile_ok (web : CompetitorWeb) (category name : string) (p : CompetitorProfile) :
  build_profile web category name = Ok p ->
  cp_name p = name /\ cp_price_index p = 1%float /\ cp_online_presence_score p = 7%float.
Proof.
  unfold build_profile. destruct (scrape_competitor_info web name category) as [st wk].
  destruct (_ && _)%bool; intros H; inversion H; subst; auto.
Qed.

Lemma analyze_async_competitors (web : CompetitorWeb) (category : string) (r : CompetitorAnalysisResult) :
  analyze_async web category = Ok r ->
  exists cs, r = mk_analysis category (cw_now_iso web) cs (assess_market_concentration cs)
                   (py_sum_floats (map cp_market_share cs)) (identify_opportunities cs) (identify_threats cs)
             /\ py_map_m (build_profile web category) (firstn 5 (search_competitors web category)) = Ok cs.
Proof.
  unfold analyze_async, py_bind.
  destruct (py_map_m _ _) as [cs|e]; intros H; [|discriminate].
  inversion H. eauto.
Qed.

(** The profiles of a competitive analysis are those of the companies the
    search found, in order and at most five; when the search finds none,
    they are the three fallback names built from the category. *)
Theorem analyze_async_names :
  forall web category r,
    analyze_async web category = Ok r ->
    map cp_name (car_competitors r)
    = match cw_search_names web ("top companies " ++ category ++ " market share") with
      | [] => fallback_competitors category
      | l => firstn 5 l
      end.
Proof.
  intros web category r H. destruct (analyze_async_competitors _ _ _ H) as (cs & -> & Hm). simpl.
  transitivity (firstn 5 (search_competitors web category)).
  - apply Forall2_map_eq. refine (py_map_m_forall2 _ _ _ _ _ Hm).
    intros n p Hp. apply (build_profile_ok _ _ _ _ Hp).
  - unfold search_competitors.
    destruct (cw_search_names web _) as [|x l]; [reflexivity|].
    rewrite firstn_firstn. reflexivity.
Qed.

Lemma analyze_async_names_witness :
  analyze_async demo_web "Electronics/Audio" =
    Ok (mk_analysis "Electronics/Audio" (cw_now_iso demo_web)
          (map (fun n => mk_profile n 30 "Market-based" 1 ["Strong brand recognition"] ["Strong brand recognition"]
                                    "General market" 7) ["Sony"; "Bose"])
          "Moderately concentrated" 60 [service_opportunity; innovation_opportunity]
          ["Potential price war"; "New disruptive entrants"; dominant_threat])
  /\ map cp_name (car_competitors (mk_analysis "Electronics/Audio" (cw_now_iso demo_web)
          (map (fun n => mk_profile n 30 "Market-based" 1 ["Strong brand recognition"] ["Strong brand recognition"]
                                    "General market" 7) ["Sony"; "Bose"])
          "Moderately concentrated" 60 [service_opportunity; innovation_opportunity]
          ["Potential price war"; "New disruptive entrants"; dominant_threat]))
     = ["Sony"; "Bose"]
  /\ (forall r, analyze_async empty_search_web "Electronics/Audio" = Ok r ->
        map cp_name (car_competitors r) = fallback_competitors "Electronics/Audio").
Proof.
  assert (H : analyze_async demo_web "Electronics/Audio" =
    Ok (mk_analysis "Electronics/Audio" (cw_now_iso demo_web)
          (map (fun n => mk_profile n 30 "Market-based" 1 ["Strong brand recognition"] ["Strong brand recognition"]
                                    "General market" 7) ["Sony"; "Bose"])
          "Moderately concentrated" 60 [service_opportunity; innovation_opportunity]
          ["Potential price war"; "New disruptive entrants"; dominant_threat])) by (vm_compute; reflexivity).
  split; [exact H|]. split.
  - exact (analyze_async_names demo_web "Electronics/Audio" _ H).
  - intros r Hr. exact (analyze_async_names empty_search_web "Electronics/Audio" r Hr).
Defined.

Lemma identify_opportunities_fixed (cs : list CompetitorProfile) :
  Forall (fun p => cp_price_index p = 1%float /\ cp_online_presence_score p = 7%float) cs ->
  length cs <= 5 ->
  identify_opportunities cs = [service_opportunity; innovation_opportunity].
Proof.
  intros Hf Hl.
  destruct cs as [|[n1 m1 s1 i1 t1 w1 g1 o1] [|[n2 m2 s2 i2 t2 w2 g2 o2] [|[n3 m3 s3 i3 t3 w3 g3 o3]
    [|[n4 m4 s4 i4 t4 w4 g4 o4] [|[n5 m5 s5 i5 t5 w5 g5 o5] [|p6 cs]]]]]];
    repeat match goal with
           | H : Forall _ (_ :: _) |- _ => inversion H; clear H; subst
           | H : _ /\ _ |- _ => destruct H; simpl in *; subst
           end;
    try reflexivity; simpl in Hl; try lia; vm_compute; reflexivity.
Qed.

(** With the profiles [analyze_async] builds (price index 1.0 and online
    presence 7.0 for every competitor), the analysis never reports the
    price or digital opportunities: its opportunities are exactly the two
    constant ones. *)
Theorem analyze_async_opportunities :
  forall web category r,
    analyze_async web category = Ok r ->
    car_opportunities r = [service_opportunity; innovation_opportunity].
Proof.
  intros web category r H. destruct (analyze_async_competitors _ _ _ H) as (cs & -> & Hm). simpl.
  apply identify_opportunities_fixed.
  - refine (py_map_m_forall _ _ _ _ _ Hm). intros x y Hy.
    destruct (build_profile_ok _ _ _ _ Hy) as (_ & H1 & H2). auto.
  - rewrite (py_map_m_length _ _ _ Hm), length_firstn. lia.
Qed.

Lemma analyze_async_opportunities_witness :
  exists r, analyze_async demo_web "Electronics/Audio" = Ok r
            /\ car_opportunities r = [service_opportunity; innovation_opportunity].
Proof.
  destruct (analyze_async demo_web "Electronics/Audio") as [r|e] eqn:H; [|vm_compute in H; discriminate].
  exists r. split; [reflexivity|]. exact (analyze_async_opportunities _ _ _ H).
Defined.

(** [opportunities[:4]] never cuts anything: the list is the price
    opportunity when one is found, then the digital one when some
    competitor's online presence is below 7, then the two constant ones. *)
Theorem identify_opportunities_shape :
  forall cs,
    exists b : bool,
      identify_opportunities cs
      = ((if b then [aggressive_price_opportunity] else [])
         ++ (if existsb (fun c => PrimFloat.ltb (cp_online_presence_score c) 7) cs
             then [digital_opportunity] else [])
         ++ [service_opportunity; innovation_opportunity])%list.
Proof.
  intros cs. unfold identify_opportunities.
  destruct (PrimFloat.ltb 1.1 _); [exists true | exists false];
    destruct (existsb _ cs); reflexivity.
Qed.

(** Splits the [let*] chain of a hypothesis [c = Ok _]. *)
Ltac py_ok_inv :=
  repeat match goal with
         | H : py_bind ?c _ = Ok _ |- _ =>
             let E := fresh "E" in
             destruct c eqn:E; [cbn [py_bind] in H | discriminate H]
         | H : (if ?b then _ else _) = Ok _ |- _ =>
             let E := fresh "E" in destruct b eqn:E
         | H : Ok _ = Ok _ |- _ => inversion H; subst; clear H
         end.

Lemma price_recs_length (env : PyEnv) (p : PyVal) (l : list string) :
  price_recs env p = Ok l -> length l <= 1.
Proof. unfold price_recs. intros H. py_ok_inv; simpl; lia. Qed.

Lemma competition_recs_length (env : PyEnv) (c : PyVal) (l : list string) :
  competition_recs env c = Ok l -> length l <= 1.
Proof. unfold competition_recs. intros H. py_ok_inv; simpl; lia. Qed.

Lemma sentiment_recs_length (env : PyEnv) (s : PyVal) (l : list string) :
  sentiment_recs env s = Ok l -> length l <= 2.
Proof.
  unfold sentiment_recs. intros H. py_ok_inv; simpl; try lia;
    repeat match goal with
           | H : (if ?b then _ else _) = Ok _ |- _ => destruct b; py_ok_inv
           end; rewrite ?length_app; simpl; lia.
Qed.

(** [recommendations[:6]] never cuts anything: the section numbers at
    most four data-driven recommendations (price, market opportunity,
    priority improvement, competitive advantage), always followed by the
    distribution and retention ones, which close the list as its last two
    entries. *)
Theorem generate_recommendations_shape :
  forall env p c s t,
    generate_recommendations env p c s = Ok t ->
    exists rs,
      length rs <= 4
      /\ t = ("
### 4. Strategic Recommendations

" ++ py_join nl (numbered 0 (rs ++ [distribution_rec; retention_rec])) ++ "
")%string.
Proof.
  intros env p c s t H. unfold generate_recommendations in H.
  destruct (price_recs env p) as [r1|] eqn:E1; [|discriminate].
  destruct (competition_recs env c) as [r2|] eqn:E2; [|discriminate].
  destruct (sentiment_recs env s) as [r3|] eqn:E3; [|discriminate].
  unfold py_bind in H. lazy beta iota zeta in H.
  apply price_recs_length in E1. apply competition_recs_length in E2. apply sentiment_recs_length in E3.
  rewrite firstn_all2 in H by (rewrite !length_app; simpl; lia).
  exists (r1 ++ r2 ++ r3)%list. rewrite !length_app. split; [lia|].
  rewrite <- !app_assoc. congruence.
Qed.

Lemma generate_recommendations_shape_witness :
  exists t,
    generate_recommendations demo_env
      (PDict [("price_range", PDict [("min", PInt 20)])])
      (PDict [("opportunities", PList [PStr "Customer service differentiation"])])
      (PDict [("key_themes", PDict [("negative", PList [PDict [("theme", PStr "battery life")]]);
                                    ("positive", PList [PDict [("theme", PStr "sound quality")]])])])
    = Ok t
    /\ exists rs,
         length rs <= 4
         /\ t = ("
### 4. Strategic Recommendations

" ++ py_join nl (numbered 0 (rs ++ [distribution_rec; retention_rec])) ++ "
")%string.
Proof.
  destruct (generate_recommendations demo_env
      (PDict [("price_range", PDict [("min", PInt 20)])])
      (PDict [("opportunities", PList [PStr "Customer service differentiation"])])
      (PDict [("key_themes", PDict [("negative", PList [PDict [("theme", PStr "battery life")]]);
                                    ("positive", PList [PDict [("theme", PStr "sound quality")]])])]))
    as [t|e] eqn:H; [|vm_compute in H; discriminate].
  exists t. split; [reflexivity|]. exact (generate_recommendations_shape _ _ _ _ _ H).
Defined.

Lemma generate_executive_summary_ok (env : PyEnv) (p s : PyVal) (x : string) :
  generate_executive_summary env p s = Ok x -> (exists dp, p = PDict dp) /\ (exists ds, s = PDict ds).
Proof.
  unfold generate_executive_summary.
  destruct p as [| | | | | |dp]; try (simpl; discriminate). intros H.
  split; [eauto|]. destruct s as [| | | | | |ds]; try (simpl in H; discriminate). eauto.
Qed.

Lemma generate_competitor_section_ok (env : PyEnv) (w : PyVal) (x : string) :
  generate_competitor_section env w = Ok x -> (exists d, w = PDict d) \/ truthy w = false.
Proof.
  unfold generate_competitor_section. destruct (truthy w) eqn:Ew; [|intros _; right; reflexivity].
  destruct w as [| | | | | |d]; try (simpl; discriminate). left; eauto.
Qed.

(** [generate] returns a report only when the product and sentiment
    arguments are (or parse to) JSON objects and the competitor argument
    to an object or a falsy value (null, false, 0, "", []): any other
    value fails with an [AttributeError] on [.get]. *)
Theorem generate_requires_objects :
  forall env a b c r,
    generate env a b c = Ok r ->
    (exists dp, parse_json_safely env a = Ok (PDict dp))
    /\ (exists w, parse_json_safely env b = Ok w /\ ((exists dc, w = PDict dc) \/ truthy w = false))
    /\ (exists ds, parse_json_safely env c = Ok (PDict ds)).
Proof.
  intros env a b c r H. unfold generate in H.
  destruct (parse_json_safely env a) as [p|] eqn:Ea; [|discriminate].
  destruct (parse_json_safely env b) as [w|] eqn:Eb; [|discriminate].
  destruct (parse_json_safely env c) as [s|] eqn:Ec; [|discriminate].
  cbn [py_bind] in H.
  destruct (generate_executive_summary env p s) as [x|] eqn:Es; [|discriminate].
  cbn [py_bind] in H.
  destruct (generate_product_section env p) as [y|]; [|discriminate].
  cbn [py_bind] in H.
  destruct (generate_competitor_section env w) as [z|] eqn:Ew; [|discriminate].
  destruct (generate_executive_summary_ok _ _ _ _ Es) as [[dp ->] [ds ->]].
  split; [eauto|]. split; [|eauto].
  exists w. split; [reflexivity|]. exact (generate_competitor_section_ok _ _ _ Ew).
Qed.

Lemma generate_requires_objects_witness :
  generate demo_env (PStr "{}") (PStr "{}") (PStr "{}") = Ok (empty_report demo_env)
  /\ (exists dp, parse_json_safely demo_env (PStr "{}") = Ok (PDict dp))
  /\ (exists w, parse_json_safely demo_env (PStr "{}") = Ok w /\ ((exists dc, w = PDict dc) \/ truthy w = false))
  /\ (exists ds, parse_json_safely demo_env (PStr "{}") = Ok (PDict ds)).
Proof.
  assert (H : generate demo_env (PStr "{}") (PStr "{}") (PStr "{}") = Ok (empty_report demo_env))
    by (vm_compute; reflexivity).
  split; [exact H|]. exact (generate_requires_objects _ _ _ _ _ H).
Defined.



Lemma generate_competitor_section_falsy (env : PyEnv) (w : PyVal) :
  truthy w = false -> generate_competitor_section env w = Ok competitor_placeholder.
Proof. intros H. unfold generate_competitor_section. rewrite H. reflexivity. Qed.

Lemma generate_recommendations_falsy_competitors (env : PyEnv) (p w s : PyVal) :
  truthy w = false -> generate_recommendations env p w s = generate_recommendations env p (PDict []) s.
Proof.
  intros H. unfold generate_recommendations.
  assert (E : competition_recs env w = competition_recs env (PDict [])).
  { unfold competition_recs. rewrite H. reflexivity. }
  rewrite E. reflexivity.
Qed.

(** A competitor argument that is (or parses to) a falsy value (JSON
    null, false, 0, "" or []) gives the same report, or the same error,
    as an empty object: the competitive section is the "Data not
    available" placeholder and no market-opportunity recommendation is
    made. *)
Theorem generate_falsy_competitors :
  forall env a b c w,
    parse_json_safely env b = Ok w -> truthy w = false ->
    generate env a b c = generate env a (PDict []) c.
Proof.
  intros env a b c w Hb Hw. unfold generate. rewrite Hb.
  change (parse_json_safely env (PDict [])) with (Ok (PDict []) : py_result PyVal).
  destruct (parse_json_safely env a) as [p|e]; [|reflexivity].
  destruct (parse_json_safely env c) as [s|e]; [|reflexivity].
  cbn [py_bind].
  destruct (generate_executive_summary env p s) as [x|e]; [|reflexivity]. cbn [py_bind].
  destruct (generate_product_section env p) as [y|e]; [|reflexivity]. cbn [py_bind].
  rewrite (generate_competitor_section_falsy env w Hw),
          (generate_competitor_section_falsy env (PDict []) eq_refl).
  cbn [py_bind].
  destruct (generate_sentiment_section env s) as [z|e]; [|reflexivity]. cbn [py_bind].
  rewrite (generate_recommendations_falsy_competitors env p w s Hw). reflexivity.
Qed.

Lemma generate_falsy_competitors_witness :
  generate json_env (PStr "{}") (PStr "[]") (PStr "{}") = generate json_env (PStr "{}") (PDict []) (PStr "{}").
Proof. apply (generate_falsy_competitors json_env _ _ _ (PList [])); reflexivity. Defined.

Lemma assoc_app_none {A : Type} (k : string) (d1 d2 : list (string * A)) :
  assoc k d1 = None -> assoc k (d1 ++ d2) = assoc k d2.
Proof.
  induction d1 as [|[k0 v0] d1 IH]; simpl; [reflexivity|].
  destruct (String.eqb k k0); [discriminate|exact IH].
Qed.

Lemma assoc_app_other {A : Type} (k k' : string) (v v' : A) (d1 d2 : list (string * A)) :
  k' <> k -> assoc k' (d1 ++ (k, v) :: d2) = assoc k' (d1 ++ (k, v') :: d2).
Proof.
  intros Hk. induction d1 as [|[k0 v0] d1 IH]; simpl.
  - destruct (String.eqb_spec k' k); [contradiction|reflexivity].
  - destruct (String.eqb k' k0); [reflexivity|exact IH].
Qed.

Lemma py_get_other (d1 d2 : list (string * PyVal)) (k k' : string) (v v' def : PyVal) :
  k' <> k ->
  py_get (PDict (d1 ++ (k, v) :: d2)) k' def = py_get (PDict (d1 ++ (k, v') :: d2)) k' def.
Proof. intros Hk. simpl. rewrite (assoc_app_other k k' v v' d1 d2 Hk). reflexivity. Qed.

Lemma py_get_at (d1 d2 : list (string * PyVal)) (k : string) (v def : PyVal) :
  assoc k d1 = None -> py_get (PDict (d1 ++ (k, v) :: d2)) k def = Ok v.
Proof. intros Hk. simpl. rewrite (assoc_app_none k d1 _ Hk). simpl. rewrite String.eqb_refl. reflexivity. Qed.

Lemma truthy_app_cons (d1 d2 : list (string * PyVal)) (x : string * PyVal) :
  truthy (PDict (d1 ++ x :: d2)) = true.
Proof. destruct d1; reflexivity. Qed.

Section TopSellers.

Variables (env : PyEnv) (d1 d2 : list (string * PyVal)) (l : list PyVal).
Hypothesis fresh_key : assoc "top_sellers" d1 = None.

Let P := PDict (d1 ++ ("top_sellers", PList l) :: d2).
Let P3 := PDict (d1 ++ ("top_sellers", PList (firstn 3 l)) :: d2).

Lemma top_sellers_get_other (k' : string) (def : PyVal) :
  k' <> "top_sellers" -> py_get P k' def = py_get P3 k' def.
Proof. apply py_get_other. Qed.

Lemma top_sellers_summary (s : PyVal) :
  generate_executive_summary env P s = generate_executive_summary env P3 s.
Proof.
  unfold generate_executive_summary.
  rewrite !top_sellers_get_other by discriminate. reflexivity.
Qed.

Lemma top_sellers_product_section :
  generate_product_section env P = generate_product_section env P3.
Proof.
  unfold generate_product_section. unfold P, P3. rewrite !truthy_app_cons. cbn [negb].
  rewrite !(py_get_at d1 d2 "top_sellers") by exact fresh_key.
  cbn [py_bind py_slice_upto]. rewrite firstn_firstn. simpl Nat.min.
  fold P P3. rewrite !top_sellers_get_other by discriminate. reflexivity.
Qed.

Lemma top_sellers_recommendations (c s : PyVal) :
  generate_recommendations env P c s = generate_recommendations env P3 c s.
Proof.
  unfold generate_recommendations, price_recs. unfold P at 1, P3 at 1. rewrite !truthy_app_cons.
  rewrite !top_sellers_get_other by discriminate. reflexivity.
Qed.

End TopSellers.

Lemma parse_json_safely_dict (env : PyEnv) (d : list (string * PyVal)) :
  parse_json_safely env (PDict d) = Ok (PDict d).
Proof. reflexivity. Qed.

(** Only the first three entries of the product's [top_sellers] list
    reach the report: replacing the list by its first three entries
    changes neither the report nor the error [generate] raises. *)
Theorem generate_top_sellers_cut :
  forall env d1 d2 l b c,
    assoc "top_sellers" d1 = None ->
    generate env (PDict (d1 ++ ("top_sellers", PList l) :: d2)) b c
    = generate env (PDict (d1 ++ ("top_sellers", PList (firstn 3 l)) :: d2)) b c.
Proof.
  intros env d1 d2 l b c Hk. unfold generate. rewrite !parse_json_safely_dict.
  destruct (parse_json_safely env b) as [w|e]; [|reflexivity].
  destruct (parse_json_safely env c) as [s|e]; [|reflexivity].
  cbn [py_bind].
  rewrite (top_sellers_summary env d1 d2 l s), (top_sellers_product_section env d1 d2 l Hk),
          (top_sellers_recommendations env d1 d2 l w s).
  reflexivity.
Qed.

Lemma generate_top_sellers_cut_witness :
  generate json_env
    (PDict [("name", PStr "Buds");
            ("top_sellers", PList [PDict [("name", PStr "Amazon"); ("price", PInt 30)];
                                   PDict [("name", PStr "Walmart"); ("price", PInt 31)];
                                   PDict [("name", PStr "Target"); ("price", PInt 32)];
                                   PNone])])
    (PStr "{}") (PStr "{}")
  = generate json_env
    (PDict [("name", PStr "Buds");
            ("top_sellers", PList [PDict [("name", PStr "Amazon"); ("price", PInt 30)];
                                   PDict [("name", PStr "Walmart"); ("price", PInt 31)];
                                   PDict [("name", PStr "Target"); ("price", PInt 32)]])])
    (PStr "{}") (PStr "{}").
Proof.
  exact (generate_top_sellers_cut json_env [("name", PStr "Buds")] []
           [PDict [("name", PStr "Amazon"); ("price", PInt 30)];
            PDict [("name", PStr "Walmart"); ("price", PInt 31)];
            PDict [("name", PStr "Target"); ("price", PInt 32)];
            PNone] (PStr "{}") (PStr "{}") eq_refl).
Defined.

Section CompetitorRows.

Variables (env : PyEnv) (d1 d2 : list (string * PyVal)) (l : list PyVal).
Hypothesis fresh_key : assoc "competitors" d1 = None.

Let C := PDict (d1 ++ ("competitors", PList l) :: d2).
Let C5 := PDict (d1 ++ ("competitors", PList (firstn 5 l)) :: d2).

Lemma competitor_rows_get_other (k' : string) (def : PyVal) :
  k' <> "competitors" -> py_get C k' def = py_get C5 k' def.
Proof. apply py_get_other. Qed.

Lemma competitor_rows_section :
  generate_competitor_section env C = generate_competitor_section env C5.
Proof.
  unfold generate_competitor_section. unfold C, C5. rewrite !truthy_app_cons. cbn [negb].
  rewrite !(py_get_at d1 d2 "competitors") by exact fresh_key.
  cbn [py_bind py_slice_upto]. rewrite firstn_firstn. simpl Nat.min.
  fold C C5. rewrite !competitor_rows_get_other by discriminate. reflexivity.
Qed.

Lemma competitor_rows_recommendations (p s : PyVal) :
  generate_recommendations env p C s = generate_recommendations env p C5 s.
Proof.
  unfold generate_recommendations, competition_recs. unfold C at 1, C5 at 1. rewrite !truthy_app_cons.
  rewrite !competitor_rows_get_other by discriminate. reflexivity.
Qed.

End CompetitorRows.

(** Only the first five entries of the [competitors] list of the
    competitive analysis reach the report's table: replacing the list by
    its first five entries changes neither the report nor the error
    [generate] raises. *)
Theorem generate_competitor_rows_cut :
  forall env a d1 d2 l c,
    assoc "competitors" d1 = None ->
    generate env a (PDict (d1 ++ ("competitors", PList l) :: d2)) c
    = generate env a (PDict (d1 ++ ("competitors", PList (firstn 5 l)) :: d2)) c.
Proof.
  intros env a d1 d2 l c Hk. unfold generate. rewrite !parse_json_safely_dict.
  destruct (parse_json_safely env a) as [p|e]; [|reflexivity].
  destruct (parse_json_safely env c) as [s|e]; [|reflexivity].
  cbn [py_bind].
  destruct (generate_executive_summary env p s) as [x|e]; [|reflexivity]. cbn [py_bind].
  destruct (generate_product_section env p) as [y|e]; [|reflexivity]. cbn [py_bind].
  rewrite (competitor_rows_section env d1 d2 l Hk), (competitor_rows_recommendations env d1 d2 l p s).
  reflexivity.
Qed.

Lemma generate_competitor_rows_cut_witness :
  generate json_env (PStr "{}")
    (PDict [("competitors", PList [PDict [("name", PStr "A")]; PDict [("name", PStr "B")];
                                   PDict [("name", PStr "C")]; PDict [("name", PStr "D")];
                                   PDict [("name", PStr "E")]; PStr "F"])])
    (PStr "{}")
  = generate json_env (PStr "{}")
    (PDict [("competitors", PList [PDict [("name", PStr "A")]; PDict [("name", PStr "B")];
                                   PDict [("name", PStr "C")]; PDict [("name", PStr "D")];
                                   PDict [("name", PStr "E")]])])
    (PStr "{}").
Proof.
  exact (generate_competitor_rows_cut json_env (PStr "{}") [] []
           [PDict [("name", PStr "A")]; PDict [("name", PStr "B")];
            PDict [("name", PStr "C")]; PDict [("name", PStr "D")];
            PDict [("name", PStr "E")]; PStr "F"] (PStr "{}") eq_refl).
Defined.

Lemma theme_lines_firstn (env : PyEnv) (n : nat) (l : list PyVal) :
  theme_lines env (PList (firstn n l)) n = theme_lines env (PList l) n.
Proof. unfold theme_lines. cbn [py_slice_upto py_bind]. rewrite firstn_firstn, Nat.min_id. reflexivity. Qed.

Lemma truthy_firstn (n : nat) (l : list PyVal) :
  1 <= n -> truthy (PList (firstn n l)) = truthy (PList l).
Proof. intros Hn. destruct n as [|n]; [lia|]. destruct l; reflexivity. Qed.

Lemma py_index0_firstn (n : nat) (l : list PyVal) :
  1 <= n -> py_index0 (PList (firstn n l)) = py_index0 (PList l).
Proof. intros Hn. destruct n as [|n]; [lia|]. destruct l; reflexivity. Qed.

Section KeyThemes.

Variables (env : PyEnv) (d1 d2 e1 e2 : list (string * PyVal)) (l : list PyVal) (k : string) (n : nat).
Hypothesis themes_key : assoc "key_themes" d1 = None.
Hypothesis list_key : assoc k e1 = None.
Hypothesis cut : (k = "positive" /\ n = 4) \/ (k = "negative" /\ n = 3).

Let T := PDict (e1 ++ (k, PList l) :: e2).
Let Tn := PDict (e1 ++ (k, PList (firstn n l)) :: e2).
Let S := PDict (d1 ++ ("key_themes", T) :: d2).
Let Sn := PDict (d1 ++ ("key_themes", Tn) :: d2).

Lemma key_themes_get_other (k' : string) (def : PyVal) :
  k' <> "key_themes" -> py_get S k' def = py_get Sn k' def.
Proof. apply py_get_other. Qed.

Lemma key_themes_get (def : PyVal) : py_get S "key_themes" def = Ok T.
Proof. apply py_get_at. exact themes_key. Qed.

Lemma key_themes_get_n (def : PyVal) : py_get Sn "key_themes" def = Ok Tn.
Proof. apply py_get_at. exact themes_key. Qed.

Lemma key_themes_summary (p : PyVal) :
  generate_executive_summary env p S = generate_executive_summary env p Sn.
Proof.
  unfold generate_executive_summary.
  destruct (py_get p "name" _) as [x|e]; [|reflexivity]. cbn [py_bind].
  destruct (py_get p "description" _) as [y|e]; [|reflexivity]. cbn [py_bind].
  rewrite !key_themes_get_other by discriminate. reflexivity.
Qed.

Lemma key_themes_section :
  generate_sentiment_section env S = generate_sentiment_section env Sn.
Proof.
  unfold generate_sentiment_section, percent_field.
  assert (Ht : truthy S = true /\ truthy Sn = true) by (split; apply truthy_app_cons).
  destruct Ht as [-> ->]. cbn [negb].
  rewrite key_themes_get, key_themes_get_n, !key_themes_get_other by discriminate.
  cbn [py_bind]. unfold T, Tn.
  destruct cut as [[-> ->]|[-> ->]].
  - rewrite !(py_get_at e1 e2 "positive") by exact list_key.
    rewrite !(py_get_other e1 e2 "positive" "negative" (PList l) (PList (firstn 4 l))) by discriminate.
    cbn [py_bind]. rewrite theme_lines_firstn. reflexivity.
  - rewrite !(py_get_at e1 e2 "negative") by exact list_key.
    rewrite !(py_get_other e1 e2 "negative" "positive" (PList l) (PList (firstn 3 l))) by discriminate.
    destruct (py_get (PDict (e1 ++ ("negative", PList (firstn 3 l)) :: e2)) "positive" (PList []))
      as [pos|e]; [|reflexivity].
    cbn [py_bind]. destruct (theme_lines env pos 4) as [pt|e]; [|reflexivity]. cbn [py_bind].
    rewrite theme_lines_firstn. reflexivity.
Qed.

Lemma key_themes_recommendations (p c : PyVal) :
  generate_recommendations env p c S = generate_recommendations env p c Sn.
Proof.
  unfold generate_recommendations, sentiment_recs.
  assert (Ht : truthy S = true /\ truthy Sn = true) by (split; apply truthy_app_cons).
  destruct Ht as [-> ->]. cbn [negb].
  rewrite key_themes_get, key_themes_get_n. cbn [py_bind]. unfold T, Tn.
  destruct cut as [[-> ->]|[-> ->]].
  - rewrite !(py_get_at e1 e2 "positive") by exact list_key.
    rewrite !(py_get_other e1 e2 "positive" "negative" (PList l) (PList (firstn 4 l))) by discriminate.
    cbn [py_bind]. rewrite truthy_firstn, py_index0_firstn by lia. reflexivity.
  - rewrite !(py_get_at e1 e2 "negative") by exact list_key.
    rewrite !(py_get_other e1 e2 "negative" "positive" (PList l) (PList (firstn 3 l))) by discriminate.
    cbn [py_bind]. rewrite truthy_firstn, py_index0_firstn by lia. reflexivity.
Qed.

End KeyThemes.

(** Only the first four positive and the first three negative themes of
    the sentiment analysis ([key_themes.positive], [key_themes.negative])
    reach the report: cutting either list to that length changes neither
    the report nor the error [generate] raises. *)
Theorem generate_key_themes_cut :
  forall env a b d1 d2 e1 e2 l k n,
    assoc "key_themes" d1 = None -> assoc k e1 = None ->
    (k = "positive" /\ n = 4) \/ (k = "negative" /\ n = 3) ->
    generate env a b (PDict (d1 ++ ("key_themes", PDict (e1 ++ (k, PList l) :: e2)) :: d2))
    = generate env a b (PDict (d1 ++ ("key_themes", PDict (e1 ++ (k, PList (firstn n l)) :: e2)) :: d2)).
Proof.
  intros env a b d1 d2 e1 e2 l k n H1 H2 H3. unfold generate. rewrite !parse_json_safely_dict.
  destruct (parse_json_safely env a) as [p|e]; [|reflexivity].
  destruct (parse_json_safely env b) as [w|e]; [|reflexivity].
  cbn [py_bind].
  rewrite (key_themes_summary env d1 d2 e1 e2 l k n p).
  destruct (generate_executive_summary env p _) as [x|e]; [|reflexivity]. cbn [py_bind].
  destruct (generate_product_section env p) as [y|e]; [|reflexivity]. cbn [py_bind].
  destruct (generate_competitor_section env w) as [z|e]; [|reflexivity]. cbn [py_bind].
  rewrite (key_themes_section env d1 d2 e1 e2 l k n H1 H2 H3),
          (key_themes_recommendations env d1 d2 e1 e2 l k n H1 H2 H3 p w).
  reflexivity.
Qed.

Lemma generate_key_themes_cut_witness :
  generate json_env (PStr "{}") (PStr "{}")
    (PDict [("key_themes", PDict [("negative", PList [PDict [("theme", PStr "battery life")];
                                                      PDict [("theme", PStr "fit")];
                                                      PDict [("theme", PStr "price")];
                                                      PInt 0])])])
  = generate json_env (PStr "{}") (PStr "{}")
    (PDict [("key_themes", PDict [("negative", PList [PDict [("theme", PStr "battery life")];
                                                      PDict [("theme", PStr "fit")];
                                                      PDict [("theme", PStr "price")]])])]).
Proof.
  exact (generate_key_themes_cut json_env (PStr "{}") (PStr "{}") [] [] [] []
           [PDict [("theme", PStr "battery life")]; PDict [("theme", PStr "fit")];
            PDict [("theme", PStr "price")]; PInt 0] "negative" 3
           eq_refl eq_refl (or_intror (conj eq_refl eq_refl))).
Defined.

Lemma str_app_assoc (a b c : string) : ((a ++ b) ++ c)%string = (a ++ (b ++ c))%string.
Proof. induction a as [|x a IH]; simpl; [reflexivity|]. rewrite IH. reflexivity. Qed.

Lemma list_ascii_of_string_app (a b : string) :
  list_ascii_of_string (a ++ b) = (list_ascii_of_string a ++ list_ascii_of_string b)%list.
Proof. induction a as [|x a IH]; simpl; [reflexivity|]. rewrite IH. reflexivity. Qed.

Lemma lstrip_l_spaces (w l : list ascii) :
  forallb py_space w = true -> lstrip_l (w ++ l) = lstrip_l l.
Proof.
  induction w as [|x w IH]; simpl; [reflexivity|].
  intros H. apply andb_prop in H as [Hx Hw]. rewrite Hx. exact (IH Hw).
Qed.

(** [s.strip()] of a text made of leading whitespace, a body that starts
    and ends with a non-space character, and trailing whitespace, is the
    body. *)
Lemma py_strip_frame (pre body post : string) (h t : ascii) (B B' : string) :
  forallb py_space (list_ascii_of_string pre) = true ->
  forallb py_space (list_ascii_of_string post) = true ->
  body = String h B -> py_space h = false ->
  body = (B' ++ String t EmptyString)%string -> py_space t = false ->
  py_strip (pre ++ body ++ post) = body.
Proof.
  intros Hpre Hpost Hh Hsh Ht Hst. unfold py_strip.
  rewrite !list_ascii_of_string_app, lstrip_l_spaces by exact Hpre.
  assert (E1 : lstrip_l (list_ascii_of_string body ++ list_ascii_of_string post)
               = (list_ascii_of_string body ++ list_ascii_of_string post)%list)
    by (rewrite Hh; simpl; rewrite Hsh; reflexivity).
  assert (E2 : lstrip_l (rev (list_ascii_of_string body)) = rev (list_ascii_of_string body))
    by (rewrite Ht, list_ascii_of_string_app, rev_app_distr; simpl; rewrite Hst; reflexivity).
  rewrite E1, rev_app_distr, lstrip_l_spaces by (rewrite forallb_rev; exact Hpost).
  rewrite E2, rev_involutive. apply string_of_list_ascii_of_string.
Qed.

Lemma ex_mid_step (a T k : string) :
  (exists m, T = (m ++ k)%string) -> exists m, (a ++ T)%string = (m ++ k)%string.
Proof. intros [m ->]. exists (a ++ m)%string. symmetry. apply str_app_assoc. Qed.

Lemma generate_action_plan_split :
  exists ap0, generate_action_plan = (ap0 ++ (report_footer ++ nl))%string.
Proof.
  exists (string_of_list_ascii (firstn (length (list_ascii_of_string generate_action_plan) - 58)
                                        (list_ascii_of_string generate_action_plan))).
  vm_compute. reflexivity.
Qed.

(** Every report [generate] returns starts with the heading that carries
    [report_marker] and the generation date, and ends with the footer line
    of the action plan: the strip removes only the blank lines around. *)
Theorem generate_report_frame :
  forall env a b c r,
    generate env a b c = Ok r ->
    exists mid,
      r = ("# " ++ report_marker ++ nl ++ nl ++ "**Generation Date:** " ++ now_mdY_HM env
           ++ mid ++ report_footer)%string.
Proof.
  intros env a b c r H. unfold generate in H.
  destruct (parse_json_safely env a) as [p|]; [|discriminate]. cbn [py_bind] in H.
  destruct (parse_json_safely env b) as [w|]; [|discriminate]. cbn [py_bind] in H.
  destruct (parse_json_safely env c) as [s|]; [|discriminate]. cbn [py_bind] in H.
  destruct (generate_executive_summary env p s) as [x1|]; [|discriminate]. cbn [py_bind] in H.
  destruct (generate_product_section env p) as [x2|]; [|discriminate]. cbn [py_bind] in H.
  destruct (generate_competitor_section env w) as [x3|]; [|discriminate]. cbn [py_bind] in H.
  destruct (generate_sentiment_section env s) as [x4|]; [|discriminate]. cbn [py_bind] in H.
  destruct (generate_recommendations env p w s) as [x5|]; [|discriminate]. cbn [py_bind] in H.
  destruct generate_action_plan_split as [ap0 Hap]. rewrite Hap in H.
  match type of H with
  | Ok (py_strip ?E) = Ok r => assert (Hr : r = py_strip E) by congruence; clear H; subst r
  end.
  rewrite !str_app_assoc.
  match goal with
  | |- exists mid, py_strip (_ ++ _ ++ _ ++ now_mdY_HM env ++ ?T) = _ =>
      assert (Hm : exists m, T = (m ++ report_footer ++ nl ++ nl)%string)
        by (repeat first [exists EmptyString; reflexivity | apply ex_mid_step]);
      destruct Hm as [mid Hm]; rewrite Hm
  end.
  exists mid.
  set (body := ("# " ++ report_marker ++ nl ++ nl ++ "**Generation Date:** " ++ now_mdY_HM env
                ++ mid ++ report_footer)%string).
  transitivity (py_strip (nl ++ body ++ (nl ++ nl))).
  - unfold body. rewrite !str_app_assoc. reflexivity.
  - apply (py_strip_frame nl body (nl ++ nl) "#" "*"
             (" " ++ report_marker ++ nl ++ nl ++ "**Generation Date:** " ++ now_mdY_HM env
              ++ mid ++ report_footer)
             ("# " ++ report_marker ++ nl ++ nl ++ "**Generation Date:** " ++ now_mdY_HM env
              ++ mid ++ "*Report automatically generated by Market Analysis Agent"));
      try reflexivity.
    unfold body, report_footer. rewrite !str_app_assoc. reflexivity.
Qed.

Lemma generate_report_frame_witness :
  exists r, generate json_env (PStr "{}") (PStr "{}") (PStr "{}") = Ok r
    /\ exists mid,
         r = ("# " ++ report_marker ++ nl ++ nl ++ "**Generation Date:** " ++ now_mdY_HM json_env
              ++ mid ++ report_footer)%string.
Proof.
  destruct (generate json_env (PStr "{}") (PStr "{}") (PStr "{}")) as [r|e] eqn:H;
    [|vm_compute in H; discriminate].
  exists r. split; [reflexivity|]. exact (generate_report_frame _ _ _ _ _ H).
Defined.

Lemma py_concat_strs_map (i : nat) (ss : list string) :
  py_concat_strs i (map PStr ss) = Ok (String.concat "" ss).
Proof.
  revert i. induction ss as [|s ss IH]; intros i; [reflexivity|].
  cbn [map py_concat_strs]. rewrite IH. cbn [py_bind].
  destruct ss; [|reflexivity]. simpl. f_equal.
  induction s as [|x s IHs]; simpl; [reflexivity | rewrite IHs; reflexivity].
Qed.

Lemma block_text_other (b : PyVal) :
  (forall s, b <> PStr s) -> (forall d, b = PDict d -> assoc "type" d <> Some (PStr "text")) ->
  block_text b = [].
Proof.
  intros Hs Hd. destruct b as [| | | |s| |d]; try reflexivity.
  - exfalso; exact (Hs s eq_refl).
  - simpl. destruct (assoc "type" d) as [[| | | |t| |]|] eqn:Et; try reflexivity.
    destruct (String.eqb_spec t "text") as [->|]; [|reflexivity].
    exfalso; exact (Hd d eq_refl Et).
Qed.

(** [extract_text_from_response] on a list of content blocks joins its
    strings in order, and drops every block that is neither a string nor
    a dict whose ["type"] is ["text"] (an image or tool-use block): the
    result, or the [TypeError], is the same without it. *)
Theorem extract_text_blocks :
  forall env ss bs1 b bs2,
    extract_text_from_response env (PList (map PStr ss)) = Ok (String.concat "" ss)
    /\ ((forall s, b <> PStr s) -> (forall d, b = PDict d -> assoc "type" d <> Some (PStr "text")) ->
        extract_text_from_response env (PList (bs1 ++ b :: bs2))
        = extract_text_from_response env (PList (bs1 ++ bs2))).
Proof.
  intros env ss bs1 b bs2. split.
  - cbn [extract_text_from_response].
    replace (flat_map block_text (map PStr ss)) with (map PStr ss)
      by (induction ss as [|s ss IH]; simpl; [reflexivity | rewrite <- IH; reflexivity]).
    apply py_concat_strs_map.
  - intros Hs Hd. cbn [extract_text_from_response].
    rewrite !flat_map_app. cbn [flat_map]. rewrite (block_text_other b Hs Hd). reflexivity.
Qed.

Lemma extract_text_blocks_witness :
  extract_text_from_response demo_env (PList (map PStr ["Market "; "report"])) = Ok "Market report"
  /\ extract_text_from_response demo_env
       (PList ([PDict [("type", PStr "text"); ("text", PStr "Market report")]]
               ++ PDict [("type", PStr "tool_use"); ("name", PStr "generate_report")] :: []))
     = extract_text_from_response demo_env
         (PList ([PDict [("type", PStr "text"); ("text", PStr "Market report")]] ++ [])).
Proof.
  destruct (extract_text_blocks demo_env ["Market "; "report"]
              [PDict [("type", PStr "text"); ("text", PStr "Market report")]]
              (PDict [("type", PStr "tool_use"); ("name", PStr "generate_report")]) []) as [H1 H2].
  split; [exact H1|]. apply H2.
  - intros s; discriminate.
  - intros d Hd. injection Hd as <-. discriminate.
Defined.

Lemma scrape_one_length (web : CompetitorWeb) (q default : string) :
  let l := match cw_snippets web q with
           | None => []
           | Some texts => match extracted_snippets texts with [] => [default] | l => l end
           end in
  length l <= 3 /\ (cw_snippets web q <> None -> l <> []).
Proof.
  cbv zeta. destruct (cw_snippets web q) as [texts|]; [|split; [simpl; lia | intros H; contradiction]].
  unfold extracted_snippets.
  assert (Hl : length (filter (fun t => negb (String.eqb t "")) (firstn 3 texts)) <= 3).
  { etransitivity; [apply filter_length_le|]. rewrite length_firstn. lia. }
  destruct (map _ (filter _ (firstn 3 texts))) as [|x l] eqn:E.
  - split; [simpl; lia | discriminate].
  - split; [|discriminate]. rewrite <- E, length_map. exact Hl.
Qed.

(** Each competitor profile of an analysis has at most three strengths and
    at most three weaknesses (so [strengths[:4]] never cuts), and each of
    the two lists is non-empty whenever its snippet search went through
    (the default entry stands in for no snippet). *)
Theorem analyze_async_profile_lists :
  forall web category r,
    analyze_async web category = Ok r ->
    Forall (fun p =>
      length (cp_strengths p) <= 3 /\ length (cp_weaknesses p) <= 3
      /\ (cw_snippets web (cp_name p ++ " " ++ category ++ " strengths advantages") <> None ->
          cp_strengths p <> [])
      /\ (cw_snippets web (cp_name p ++ " " ++ category ++ " weaknesses problems reviews") <> None ->
          cp_weaknesses p <> [])) (car_competitors r).
Proof.
  intros web category r H. destruct (analyze_async_competitors _ _ _ H) as (cs & -> & Hm). simpl.
  refine (py_map_m_forall _ _ _ _ _ Hm). intros n p Hp.
  unfold build_profile, scrape_competitor_info in Hp.
  destruct (_ && _)%bool; [|discriminate].
  apply (f_equal (fun x => match x with Ok y => y | Raise _ => p end)) in Hp.
  lazy beta iota in Hp. subst p. cbn [cp_strengths cp_weaknesses cp_name].
  destruct (scrape_one_length web (n ++ " " ++ category ++ " strengths advantages") "Established market presence")
    as [S1 S2].
  destruct (scrape_one_length web (n ++ " " ++ category ++ " weaknesses problems reviews")
              "Limited information available") as [W1 W2].
  cbv zeta in S1, S2, W1, W2.
  repeat split.
  - rewrite length_firstn. lia.
  - rewrite length_firstn. lia.
  - intros Hs. generalize (S2 Hs). destruct (match cw_snippets web _ with None => [] | Some _ => _ end);
      [contradiction | discriminate].
  - intros Hs. rewrite firstn_all2 by exact W1. exact (W2 Hs).
Qed.

Lemma analyze_async_profile_lists_witness :
  exists r, analyze_async demo_web "Electronics/Audio" = Ok r
    /\ Forall (fun p =>
         length (cp_strengths p) <= 3 /\ length (cp_weaknesses p) <= 3
         /\ (cw_snippets demo_web (cp_name p ++ " " ++ "Electronics/Audio" ++ " strengths advantages") <> None ->
             cp_strengths p <> [])
         /\ (cw_snippets demo_web (cp_name p ++ " " ++ "Electronics/Audio" ++ " weaknesses problems reviews") <> None ->
             cp_weaknesses p <> [])) (car_competitors r).
Proof.
  destruct (analyze_async demo_web "Electronics/Audio") as [r|e] eqn:H; [|vm_compute in H; discriminate].
  exists r. split; [reflexivity|]. exact (analyze_async_profile_lists _ _ _ H).
Defined.

Lemma tools_node_answers_calls_witness :
  exists st',
    tools_node demo_env
      (mk_state [HumanMessage "Analyze the market for the product: wireless earbuds";
                 AIMessage "" [call "scrape_product_data" [("product_name", PStr "wireless earbuds")] "1";
                               call "nonexistent_tool" [] "2"]] "wireless earbuds") = Ok st'
    /\ exists c calls outs,
         last_message (messages (mk_state [HumanMessage "Analyze the market for the product: wireless earbuds";
                 AIMessage "" [call "scrape_product_data" [("product_name", PStr "wireless earbuds")] "1";
                               call "nonexistent_tool" [] "2"]] "wireless earbuds"))
           = Some (AIMessage c calls)
         /\ messages st' = (messages (mk_state [HumanMessage "Analyze the market for the product: wireless earbuds";
                 AIMessage "" [call "scrape_product_data" [("product_name", PStr "wireless earbuds")] "1";
                               call "nonexistent_tool" [] "2"]] "wireless earbuds") ++ outs)%list
         /\ Forall2 (fun tc m => exists content status,
                       m = ToolMessage content (tc_name tc) (tc_id tc) status
                       /\ (status = "success" \/ status = "error")) calls outs.
Proof.
  destruct (tools_node demo_env
      (mk_state [HumanMessage "Analyze the market for the product: wireless earbuds";
                 AIMessage "" [call "scrape_product_data" [("product_name", PStr "wireless earbuds")] "1";
                               call "nonexistent_tool" [] "2"]] "wireless earbuds")) as [st'|e] eqn:H;
    [|vm_compute in H; discriminate].
  exists st'. split; [reflexivity|]. exact (tools_node_answers_calls _ _ _ H).
Defined.
